(** * slogkit.ContextHandler

    A shallow embedding of [slogkit/context_handler.go] (the context-aware
    decorator over a [log/slog] handler) together with the parts of the Go
    libraries it calls: [context.Background], [runtime.Caller],
    [fmt.Sprintf], the [slog.Handler] interface, the built-in text/JSON
    handlers, the logger front end and the package-level [slog.Error].

    Layout: the data model and the library models first, then the four
    operations of the decorator, then records as Go stores them and
    [Handle] with its appends done in place, then the example
    environments, then the theorems. *)

From Stdlib Require Import ZArith List String Bool Lia DecimalString.
Import ListNotations.

#[local] Open Scope string_scope.
#[local] Open Scope Z_scope.
#[local] Open Scope list_scope.

(** ** A state monad for the effects of one call *)

Definition M (St A : Type) : Type := St -> A * St.

Definition ret {St A} (a : A) : M St A := fun s => (a, s).

Definition bind {St A B} (c : M St A) (k : A -> M St B) : M St B :=
  fun s => let '(a, s') := c s in k a s'.

Declare Scope monad_scope.
Delimit Scope monad_scope with monad.
Notation "x <- c ;; k" := (bind c (fun x => k))
  (at level 61, c at next level, right associativity) : monad_scope.
Notation "c ;;; k" := (bind c (fun _ => k))
  (at level 61, right associativity) : monad_scope.
#[local] Open Scope monad_scope.

(** Go's [error] values are observed through [Error()]; [None] is [nil]. *)
Definition error := string.

(** ** Package context *)

(** [context.Background()] and [context.TODO()] are two distinct empty
    contexts; [WithValue] derives a child carrying one key/value pair. *)
Inductive Context : Type :=
| Background
| TODO
| WithValue (parent : Context) (key val : string).

(** [ctx == context.Background()] *)
Definition isBackground (ctx : Context) : bool :=
  match ctx with
  | Background => true
  | _ => false
  end.

(** ** Package runtime *)

Module runtime.

(** A resolved frame: file and line. *)
Definition Frame : Type := (string * Z)%type.

(** The call stack as [runtime.Caller] reports it from inside the running
    function: for each number of frames to ascend, the frame found there,
    or nothing when the information cannot be recovered ([ok == false]). *)
Definition Stack : Type := Z -> option Frame.

(** [_, file, line, ok := runtime.Caller(skip)] *)
Definition Caller (stk : Stack) (skip : Z) : option Frame := stk skip.

(** A stack given by its frames, innermost first. *)
Definition ofFrames (fs : list Frame) : Stack :=
  fun skip => if skip <? 0 then None else nth_error fs (Z.to_nat skip).

End runtime.

(** ** Package fmt *)

(** [fmt.Sprintf("%s:%d", s, d)] *)
Definition Sprintf_s_d (s : string) (d : Z) : string :=
  (s ++ ":" ++ NilZero.string_of_int (Z.to_int d))%string.

(** ** Package log/slog *)

Module slog.

Definition Level : Type := Z.
Definition LevelDebug : Level := -4.
Definition LevelInfo : Level := 0.
Definition LevelWarn : Level := 4.
Definition LevelError : Level := 8.

(** Attribute values: the leaf kinds used by this package and groups. *)
#[local] Unset Elimination Schemes.
Inductive Value : Type :=
| StringValue (s : string)
| Int64Value (i : Z)
| BoolValue (b : bool)
| GroupValue (g : list Attr)
with Attr : Type :=
| mkAttr (Key : string) (Val : Value).
#[local] Set Elimination Schemes.

Definition Key (a : Attr) : string := let '(mkAttr k _) := a in k.
Definition Val (a : Attr) : Value := let '(mkAttr _ v) := a in v.

(** [slog.String(key, value)] and [slog.Int(key, value)] *)
Definition String (key value : string) : Attr := mkAttr key (StringValue value).
Definition Int (key : string) (value : Z) : Attr := mkAttr key (Int64Value value).

(** [Value.isEmptyGroup]: a group with no attributes at all. *)
Definition isEmptyGroup (v : Value) : bool :=
  match v with
  | GroupValue [] => true
  | _ => false
  end.

(** A log record.  [Time] counts nanoseconds from the zero [time.Time],
    so [0] is the zero time.  [PC] is the program counter of the call
    site; the front ends below do not track it and build records with
    [0], and no handler built by this package reads it. *)
Record Record : Type := mkRecord {
  Time : Z;
  Message : string;
  Level_ : Level;
  PC : Z;
  attrs : list Attr
}.

(** [slog.NewRecord(t, level, msg, pc)] *)
Definition NewRecord (t : Z) (level : Level) (msg : string) (pc : Z) : Record :=
  {| Time := t; Message := msg; Level_ := level; PC := pc; attrs := [] |}.

(** [r.AddAttrs(attrs...)] on the attribute sequence: appends in order,
    leaving out empty groups.  [inplace.AddAttrs] below is the same call
    on the record as it is stored. *)
Definition AddAttrs (r : Record) (new : list Attr) : Record :=
  {| Time := Time r; Message := Message r; Level_ := Level_ r; PC := PC r;
     attrs := attrs r ++ filter (fun a => negb (isEmptyGroup (Val a))) new |}.

(** The [slog.Handler] interface.  A handler value of type [H] acts on
    the state [O] of whatever it writes to. *)
Class Handler (O H : Type) : Type := {
  Enabled : H -> Context -> Level -> bool;
  Handle : H -> Context -> Record -> M O (option error);
  WithAttrs : H -> list Attr -> H;
  WithGroup : H -> string -> H
}.

(** *** The built-in handlers ([TextHandler], [JSONHandler])

    Both share [commonHandler].  Its output is kept structured: a line
    lists every leaf attribute with the path of groups it sits under
    (nested objects in JSON, dotted key prefixes in text). *)

Definition QAttr : Type := (list string * string * Value)%type.

Record Line : Type := mkLine {
  line_json : bool;
  line_time : option Z;
  line_level : Level;
  line_builtin_source : option Z;
  line_msg : string;
  line_attrs : list QAttr
}.

(** An [io.Writer]: [Write] answers with an error or [nil]. *)
Record Writer : Type := mkWriter {
  fd : string;
  Write : Line -> option error
}.

(** Everything handed to writers so far, in order, with the writer's name. *)
Definition Output : Type := list (string * Line).

Record HandlerOptions : Type := mkHandlerOptions {
  opt_AddSource : bool;
  opt_Level : Level
}.

Record commonHandler : Type := mkCommonHandler {
  json : bool;
  opts : HandlerOptions;
  preformattedAttrs : list QAttr;
  groups : list string;
  w : Writer
}.

(** One attribute under a group path: a group value opens its key (an
    empty key inlines the group) and contributes its members; a group
    without leaves contributes nothing. *)
Fixpoint appendAttr (prefix : list string) (key : string) (v : Value) {struct v}
  : list QAttr :=
  match v with
  | GroupValue g =>
      let prefix' := if String.eqb key "" then prefix else prefix ++ [key] in
      (fix appendAttrs (l : list Attr) : list QAttr :=
         match l with
         | [] => []
         | mkAttr k v' :: l' => appendAttr prefix' k v' ++ appendAttrs l'
         end) g
  | _ => [(prefix, key, v)]
  end.

Fixpoint appendAttrs (prefix : list string) (l : list Attr) : list QAttr :=
  match l with
  | [] => []
  | mkAttr k v :: l' => appendAttr prefix k v ++ appendAttrs prefix l'
  end.

Definition NewTextHandler (wr : Writer) (o : HandlerOptions) : commonHandler :=
  {| json := false; opts := o; preformattedAttrs := []; groups := []; w := wr |}.

Definition NewJSONHandler (wr : Writer) (o : HandlerOptions) : commonHandler :=
  {| json := true; opts := o; preformattedAttrs := []; groups := []; w := wr |}.

(** [commonHandler.enabled] *)
Definition enabled (h : commonHandler) (l : Level) : bool :=
  opt_Level (opts h) <=? l.

(** [commonHandler.withAttrs]: the attributes are formatted once, under
    the groups open at that moment. *)
Definition withAttrs (h : commonHandler) (al : list Attr) : commonHandler :=
  {| json := json h; opts := opts h;
     preformattedAttrs := preformattedAttrs h ++ appendAttrs (groups h) al;
     groups := groups h; w := w h |}.

(** [commonHandler.withGroup] *)
Definition withGroup (h : commonHandler) (name : string) : commonHandler :=
  {| json := json h; opts := opts h;
     preformattedAttrs := preformattedAttrs h;
     groups := groups h ++ [name]; w := w h |}.

(** What [commonHandler.handle] formats for a record: the built-in
    fields, the preformatted attributes, then the record's attributes
    under the open groups.  The zero time is left out; JSON carries the
    time as it is, text truncates it to the millisecond. *)
Definition format (h : commonHandler) (r : Record) : Line :=
  {| line_json := json h;
     line_time :=
       if Time r =? 0 then None
       else Some (if json h then Time r else Time r / 1000000 * 1000000);
     line_level := Level_ r;
     line_builtin_source := if opt_AddSource (opts h) then Some (PC r) else None;
     line_msg := Message r;
     line_attrs := preformattedAttrs h ++ appendAttrs (groups h) (attrs r) |}.

(** [commonHandler.handle]: no level check here; the line goes to the
    writer and the writer's answer is the result. *)
Definition handle (h : commonHandler) (r : Record) : M Output (option error) :=
  fun o => (Write (w h) (format h r), o ++ [(fd (w h), format h r)]).

#[global] Instance commonHandler_Handler : Handler Output commonHandler := {
  Enabled h _ l := enabled h l;
  Handle h _ r := handle h r;
  WithAttrs := withAttrs;
  WithGroup := withGroup
}.

End slog.


(** ** Package slogkit *)

Module slogkit.

(** The extractor is a Go closure: besides its result it may change
    whatever it captured, here a state of type [E]. *)
Definition Extractor (E : Type) : Type :=
  Context -> M E (list slog.Attr * option error).

Module ContextHandlerOptions.
Record t (E : Type) : Type := mk {
  UseJson : bool;
  Level : slog.Level;
  AddSource : bool;
  SourceKey : string;
  Writer : option slog.Writer;
  WithPID : bool;
  PIDKey : string;
  CallerSkip : Z;
  ExtraAttrs : list slog.Attr;
  AppendAttrFromContext : option (Extractor E)
}.
Arguments mk {E}.
Arguments UseJson {E}.
Arguments Level {E}.
Arguments AddSource {E}.
Arguments SourceKey {E}.
Arguments Writer {E}.
Arguments WithPID {E}.
Arguments PIDKey {E}.
Arguments CallerSkip {E}.
Arguments ExtraAttrs {E}.
Arguments AppendAttrFromContext {E}.
End ContextHandlerOptions.

Record ContextHandler (E H : Type) : Type := mkContextHandler {
  Handler : H;
  AddSource : bool;
  SourceKey : string;
  CallerSkip : Z;
  AppendAttrFromContext : option (Extractor E)
}.
Arguments mkContextHandler {E H}.
Arguments Handler {E H}.
Arguments AddSource {E H}.
Arguments SourceKey {E H}.
Arguments CallerSkip {E H}.
Arguments AppendAttrFromContext {E H}.

(** The process-wide default logger of [log/slog]: the one the library
    starts with, which writes through package [log] to standard error, or
    a logger over a [ContextHandler] installed with
    [slog.SetDefault(slog.New(h0))]; [stk0] is the stack that [h0.Handle]
    sees when the default logger calls it. *)
Inductive DefaultLogger (E H : Type) : Type :=
| InitialDefault
| InstalledDefault (h0 : ContextHandler E H) (stk0 : runtime.Stack).
Arguments InitialDefault {E H}.
Arguments InstalledDefault {E H}.

(** What a call can read and change: the extractor's captured state, the
    state behind the wrapped sink, the records the initial default logger
    has put on standard error, the current default logger and the clock. *)
Record World (E O H : Type) : Type := mkWorld {
  ext : E;
  out : O;
  stderr : list slog.Record;
  defaultLogger : DefaultLogger E H;
  clock : Z
}.
Arguments mkWorld {E O H}.
Arguments ext {E O H}.
Arguments out {E O H}.
Arguments stderr {E O H}.
Arguments defaultLogger {E O H}.
Arguments clock {E O H}.

Inductive Derivation : Type :=
| ByAttrs (attrs : list slog.Attr)
| ByGroup (name : string).

Section Methods.

Context {E O H : Type} {sink : slog.Handler O H}.

Definition set_ext (wd : World E O H) (e : E) : World E O H :=
  {| ext := e; out := out wd; stderr := stderr wd;
     defaultLogger := defaultLogger wd; clock := clock wd |}.

Definition set_out (wd : World E O H) (o : O) : World E O H :=
  {| ext := ext wd; out := o; stderr := stderr wd;
     defaultLogger := defaultLogger wd; clock := clock wd |}.

Definition add_stderr (wd : World E O H) (r : slog.Record) : World E O H :=
  {| ext := ext wd; out := out wd; stderr := stderr wd ++ [r];
     defaultLogger := defaultLogger wd; clock := clock wd |}.

(** Running the extractor, respectively the sink, inside the world. *)
Definition liftExt {A} (c : M E A) : M (World E O H) A :=
  fun wd => let '(a, e) := c (ext wd) in (a, set_ext wd e).

Definition liftOut {A} (c : M O A) : M (World E O H) A :=
  fun wd => let '(a, o) := c (out wd) in (a, set_out wd o).

(** Lines 79-96 of [Handle]: the caller's location. *)
Definition addSource (h : ContextHandler E H) (stk : runtime.Stack)
  (r : slog.Record) : slog.Record :=
  if AddSource h then
    let skip := CallerSkip h in
    let skip := if skip =? 0 then 3 else skip in
    match runtime.Caller stk skip with
    | Some (file, line) =>
        let source := Sprintf_s_d file line in
        let sourceKey := "source" in
        let sourceKey :=
          if negb (String.eqb (SourceKey h) "") then SourceKey h else sourceKey in
        slog.AddAttrs r [slog.String sourceKey source]
    | None => r
    end
  else r.

(** [slog.Error(msg, args...)]: the default logger checks its handler's
    level, builds a record stamped with the current time and hands it
    to its handler with [context.Background()].  For an installed
    [ContextHandler] that is a call of its [Handle] on the background
    context: the source step followed by delegation (see
    [slog_Error_is_Handle] below). *)
Definition slog_Error (msg : string) (args : list slog.Attr)
  : M (World E O H) unit :=
  fun wd =>
    let r := slog.AddAttrs (slog.NewRecord (clock wd) slog.LevelError msg 0) args in
    match defaultLogger wd with
    | InitialDefault => (tt, add_stderr wd r)
    | InstalledDefault h0 stk0 =>
        if slog.Enabled (Handler h0) Background slog.LevelError then
          (liftOut (slog.Handle (Handler h0) Background (addSource h0 stk0 r)) ;;;
           ret tt) wd
        else (tt, wd)
    end.

(** [func (h ContextHandler) Handle(ctx context.Context, r slog.Record) error] *)
Definition Handle (h : ContextHandler E H) (stk : runtime.Stack)
  (ctx : Context) (r : slog.Record) : M (World E O H) (option error) :=
  let r := addSource h stk r in
  if isBackground ctx then
    liftOut (slog.Handle (Handler h) ctx r)
  else
    r <- match AppendAttrFromContext h with
         | Some f =>
             res <- liftExt (f ctx) ;;
             match res with
             | (_, Some err) =>
                 slog_Error "failed to append attributes from context"
                   [slog.String "error" err] ;;;
                 ret r
             | (attrs, None) => ret (slog.AddAttrs r attrs)
             end
         | None => ret r
         end ;;
    liftOut (slog.Handle (Handler h) ctx r).

(** [Enabled] is promoted from the embedded [slog.Handler]. *)
Definition Enabled (h : ContextHandler E H) (ctx : Context) (l : slog.Level)
  : bool :=
  slog.Enabled (Handler h) ctx l.

(** [func (h ContextHandler) WithAttrs(attrs []slog.Attr) slog.Handler] *)
Definition WithAttrs (h : ContextHandler E H) (attrs : list slog.Attr)
  : ContextHandler E H :=
  {| Handler := slog.WithAttrs (Handler h) attrs;
     AddSource := AddSource h;
     SourceKey := SourceKey h;
     CallerSkip := CallerSkip h;
     AppendAttrFromContext := AppendAttrFromContext h |}.

(** [func (h ContextHandler) WithGroup(name string) slog.Handler] *)
Definition WithGroup (h : ContextHandler E H) (name : string)
  : ContextHandler E H :=
  {| Handler := slog.WithGroup (Handler h) name;
     AddSource := AddSource h;
     SourceKey := SourceKey h;
     CallerSkip := CallerSkip h;
     AppendAttrFromContext := AppendAttrFromContext h |}.

(** A chain of derivations, applied left to right, on the decorator and
    on a bare sink. *)
Definition derive1 (h : ContextHandler E H) (d : Derivation) : ContextHandler E H :=
  match d with
  | ByAttrs attrs => WithAttrs h attrs
  | ByGroup name => WithGroup h name
  end.

Definition derive (ds : list Derivation) (h : ContextHandler E H)
  : ContextHandler E H :=
  fold_left derive1 ds h.

Definition deriveSink1 (s : H) (d : Derivation) : H :=
  match d with
  | ByAttrs attrs => slog.WithAttrs s attrs
  | ByGroup name => slog.WithGroup s name
  end.

Definition deriveSink (ds : list Derivation) (s : H) : H :=
  fold_left deriveSink1 ds s.

(** The logger front end, the [log] method of [slog.Logger], for one whose
    handler is a [ContextHandler]: the level check comes first, and only
    an enabled record is built and handed to [Handle]. *)
Definition Logger_log (h : ContextHandler E H) (stk : runtime.Stack)
  (ctx : Context) (level : slog.Level) (msg : string) (args : list slog.Attr)
  : M (World E O H) unit :=
  fun wd =>
    if negb (Enabled h ctx level) then (tt, wd)
    else
      let r := slog.AddAttrs (slog.NewRecord (clock wd) level msg 0) args in
      (Handle h stk ctx r ;;; ret tt) wd.

(** *** Vocabulary of the statements below *)

(** What the context contributes to a record: the extractor's
    attributes when it is consulted and succeeds, nothing otherwise. *)
Definition contextAttrs (h : ContextHandler E H) (ctx : Context) (e : E)
  : list slog.Attr :=
  if isBackground ctx then []
  else
    match AppendAttrFromContext h with
    | Some f =>
        match f ctx e with
        | (attrs, None, _) => attrs
        | (_, Some _, _) => []
        end
    | None => []
    end.

(** The same handler with the add-source flag cleared. *)
Definition withoutSource (h : ContextHandler E H) : ContextHandler E H :=
  {| Handler := Handler h;
     AddSource := false;
     SourceKey := SourceKey h;
     CallerSkip := CallerSkip h;
     AppendAttrFromContext := AppendAttrFromContext h |}.

(** Two handlers carry the same enrichment configuration. *)
Definition sameEnrichment (h h' : ContextHandler E H) : Prop :=
  AddSource h' = AddSource h /\
  SourceKey h' = SourceKey h /\
  CallerSkip h' = CallerSkip h /\
  AppendAttrFromContext h' = AppendAttrFromContext h.

End Methods.

(** [func NewContextHandler(options ContextHandlerOptions) *ContextHandler];
    [os_Getpid] is the identifier of the running process and [os_Stdout]
    its standard output, a writer like any other. *)
Definition NewContextHandler {E : Type} (os_Getpid : Z) (os_Stdout : slog.Writer)
  (options : ContextHandlerOptions.t E) : ContextHandler E slog.commonHandler :=
  let slogOpts :=
    {| slog.opt_Level := ContextHandlerOptions.Level options;
       slog.opt_AddSource := false |} in
  let writer :=
    match ContextHandlerOptions.Writer options with
    | None => os_Stdout
    | Some wr => wr
    end in
  let handler :=
    if negb (ContextHandlerOptions.UseJson options)
    then slog.NewTextHandler writer slogOpts
    else slog.NewJSONHandler writer slogOpts in
  let handler :=
    if ContextHandlerOptions.WithPID options then
      let pidKey := "pid" in
      let pidKey :=
        if negb (String.eqb (ContextHandlerOptions.PIDKey options) "")
        then ContextHandlerOptions.PIDKey options else pidKey in
      slog.WithAttrs handler [slog.Int pidKey os_Getpid]
    else handler in
  let handler :=
    if (0 <? Z.of_nat (List.length (ContextHandlerOptions.ExtraAttrs options)))
    then slog.WithAttrs handler (ContextHandlerOptions.ExtraAttrs options)
    else handler in
  {| Handler := handler;
     AddSource := ContextHandlerOptions.AddSource options;
     SourceKey := ContextHandlerOptions.SourceKey options;
     CallerSkip := ContextHandlerOptions.CallerSkip options;
     AppendAttrFromContext := ContextHandlerOptions.AppendAttrFromContext options |}.
Arguments NewContextHandler : simpl never.

End slogkit.

(** ** Records as Go stores them

    A [slog.Record] value keeps its first five attributes inline and the
    rest in a slice, [back].  Copying the value copies the slice header,
    not the array behind it: a copy that appends in place writes into the
    array the original still points to.  [Handle] receives its record by
    value and calls [AddAttrs] on it without [Clone], so this is how its
    appends really run.  The record of the sections above, a plain
    attribute sequence, is what [Attrs] reads out of this representation;
    [Handle_agrees_Unshared] below relates the two. *)

Module inplace.

Import slogkit.

(** A slot of a backing array; [None] is the zero [Attr], which is what
    [Attr.isEmpty] tests for: no attribute built by the constructors of
    [slog] is zero. *)
Definition slot : Type := option slog.Attr.

(** A slice header: the array it points into, its length and capacity.
    The slices of a record always start at the beginning of their array. *)
Record Slice : Type := mkSlice {
  arr : nat;
  len : nat;
  cap : nat
}.

Definition nilSlice : Slice := {| arr := 0; len := 0; cap := 0 |}.

(** The arrays allocated so far, and the capacity the runtime picks when
    an append has to reallocate, given the old capacity and the length
    needed. *)
Record Heap : Type := mkHeap {
  arrays : list (list slot);
  growth : nat -> nat -> nat
}.

Definition array (hp : Heap) (s : Slice) : list slot :=
  nth (arr s) (arrays hp) [].

(** [s[i]], also past the length. *)
Definition at_ (hp : Heap) (s : Slice) (i : nat) : slot :=
  nth i (array hp s) None.

(** The elements of [s]. *)
Definition elems (hp : Heap) (s : Slice) : list slot :=
  firstn (len s) (array hp s).

Fixpoint setNth {A : Type} (i : nat) (x : A) (l : list A) : list A :=
  match l, i with
  | [], _ => []
  | _ :: t, O => x :: t
  | a :: t, S i' => a :: setNth i' x t
  end.

(** Writing one slot of one array. *)
Definition store (hp : Heap) (id i : nat) (x : slot) : Heap :=
  {| arrays := setNth id (setNth i x (nth id (arrays hp) [])) (arrays hp);
     growth := growth hp |}.

(** A new array of capacity [c] holding [contents], zero beyond. *)
Definition alloc (hp : Heap) (contents : list slot) (c : nat) : nat * Heap :=
  (List.length (arrays hp),
   {| arrays :=
        arrays hp ++ [contents ++ repeat None (c - List.length contents)];
      growth := growth hp |}).

(** The capacity after a reallocation: what the runtime picks, and never
    less than what is needed. *)
Definition newcap (hp : Heap) (oldcap need : nat) : nat :=
  Nat.max need (growth hp oldcap need).

(** [append(s, a)]: in place while capacity lasts, else into a new array. *)
Definition append (s : Slice) (a : slog.Attr) : M Heap Slice :=
  fun hp =>
    if (len s <? cap s)%nat then
      ({| arr := arr s; len := S (len s); cap := cap s |},
       store hp (arr s) (len s) (Some a))
    else
      let c := newcap hp (cap s) (S (len s)) in
      let '(id, hp') := alloc hp (elems hp s ++ [Some a]) c in
      ({| arr := id; len := S (len s); cap := c |}, hp').

(** [slices.Grow(s, n)]: room for [n] more elements; a reallocation
    copies the array up to the capacity. *)
Definition Grow (s : Slice) (n : nat) : M Heap Slice :=
  fun hp =>
    if (n <=? cap s - len s)%nat then (s, hp)
    else
      let c := newcap hp (cap s) (len s + n) in
      let '(id, hp') := alloc hp (firstn (cap s) (array hp s)) c in
      ({| arr := id; len := len s; cap := c |}, hp').

(** [slices.Clip(s)] *)
Definition Clip (s : Slice) : Slice :=
  {| arr := arr s; len := len s; cap := len s |}.

Definition nAttrsInline : nat := 5.

Record Record : Type := mkRecord {
  Time : Z;
  Message : string;
  Level : slog.Level;
  PC : Z;
  front : list slog.Attr;
  back : Slice
}.

(** [slog.NewRecord(t, level, msg, pc)] *)
Definition NewRecord (t : Z) (level : slog.Level) (msg : string) (pc : Z)
  : Record :=
  {| Time := t; Message := msg; Level := level; PC := pc;
     front := []; back := nilSlice |}.

Definition present (l : list slot) : list slog.Attr :=
  flat_map (fun s => match s with Some a => [a] | None => [] end) l.

(** The attributes in the order [r.Attrs] visits them. *)
Definition Attrs (hp : Heap) (r : Record) : list slog.Attr :=
  front r ++ present (elems hp (back r)).

(** The record as a handler reads it. *)
Definition read (hp : Heap) (r : Record) : slog.Record :=
  slog.mkRecord (Time r) (Message r) (Level r) (PC r) (Attrs hp r).

(** The first loop of [AddAttrs]: attributes go inline while there is
    room, empty groups being skipped; what is left goes to [back]. *)
Fixpoint fillFront (fr : list slog.Attr) (attrs : list slog.Attr)
  : list slog.Attr * list slog.Attr :=
  match attrs with
  | [] => (fr, [])
  | a :: rest =>
      if (List.length fr <? nAttrsInline)%nat then
        if slog.isEmptyGroup (slog.Val a) then fillFront fr rest
        else fillFront (fr ++ [a]) rest
      else (fr, attrs)
  end.

Definition countEmptyGroups (l : list slog.Attr) : nat :=
  List.length (filter (fun a => slog.isEmptyGroup (slog.Val a)) l).

(** The last loop of [AddAttrs]. *)
Fixpoint appendAll (s : Slice) (l : list slog.Attr) : M Heap Slice :=
  match l with
  | [] => ret s
  | a :: l' =>
      if slog.isEmptyGroup (slog.Val a) then appendAll s l'
      else s' <- append s a ;; appendAll s' l'
  end.

(** The attribute [AddAttrs] inserts when it finds the slot past the end
    of [back] already written. *)
Definition bug : slog.Attr :=
  slog.String "!BUG"
    "AddAttrs unsafely called on copy of Record made without using Record.Clone".

(** [func (r *Record) AddAttrs(attrs ...Attr)] *)
Definition AddAttrs (r : Record) (attrs : list slog.Attr) : M Heap Record :=
  let '(fr, rest) := fillFront (front r) attrs in
  b <- (if (len (back r) <? cap (back r))%nat then
          fun hp =>
            match at_ hp (back r) (len (back r)) with
            | Some _ => append (Clip (back r)) bug hp
            | None => (back r, hp)
            end
        else ret (back r)) ;;
  let ne := countEmptyGroups rest in
  b <- Grow b (List.length rest - ne) ;;
  b <- appendAll b rest ;;
  ret {| Time := Time r; Message := Message r; Level := Level r; PC := PC r;
         front := fr; back := b |}.

(** A record nobody has appended to through another copy: the slice is
    within its array, a record with inline room has nothing in [back],
    and every slot between length and capacity is still zero. *)
Definition unshared (hp : Heap) (r : Record) : bool :=
  (len (back r) <=? cap (back r))%nat &&
  (cap (back r) <=? List.length (array hp (back r)))%nat &&
  (if (List.length (front r) <? nAttrsInline)%nat
   then (len (back r) =? 0)%nat else true) &&
  forallb (fun s => match s with None => true | Some _ => false end)
    (skipn (len (back r)) (firstn (cap (back r)) (array hp (back r)))).

(** A record with its inline slots full whose copy has appended in
    place: the slot past the end of [back] is written. *)
Definition reused (hp : Heap) (r : Record) : bool :=
  (nAttrsInline <=? List.length (front r))%nat &&
  (len (back r) <? cap (back r))%nat &&
  (cap (back r) <=? List.length (array hp (back r)))%nat &&
  match at_ hp (back r) (len (back r)) with
  | Some _ => true
  | None => false
  end.

(** The same, as propositions: a slice within its array with nothing
    written between length and capacity, and a record over such a slice. *)
Definition Within (hp : Heap) (s : Slice) : Prop :=
  (len s <= cap s)%nat /\
  (cap s <= List.length (array hp s))%nat /\
  forall i, (len s <= i < cap s)%nat -> at_ hp s i = None.

Definition Unshared (hp : Heap) (r : Record) : Prop :=
  Within hp (back r) /\
  ((List.length (front r) < nAttrsInline)%nat -> len (back r) = 0%nat).

Section Methods.

Context {E O H : Type} {sink : slog.Handler O H}.

(** The world of the sections above together with the arrays. *)
Definition State : Type := (World E O H * Heap)%type.

Definition liftWorld {A} (c : M (World E O H) A) : M State A :=
  fun st => let '(a, wd) := c (fst st) in (a, (wd, snd st)).

Definition liftHeap {A} (c : M Heap A) : M State A :=
  fun st => let '(a, hp) := c (snd st) in (a, (fst st, hp)).

(** Handing the record to the wrapped sink, which reads its attributes. *)
Definition delegate (h : ContextHandler E H) (ctx : Context) (r : Record)
  : M State (option error) :=
  fun st => liftWorld (liftOut (slog.Handle (Handler h) ctx (read (snd st) r))) st.

(** [func (h ContextHandler) Handle(ctx context.Context, r slog.Record) error],
    the appends done in place on the by-value copy [r]. *)
Definition Handle (h : ContextHandler E H) (stk : runtime.Stack)
  (ctx : Context) (r : Record) : M State (option error) :=
  r <- (if AddSource h then
          let skip := CallerSkip h in
          let skip := if skip =? 0 then 3 else skip in
          match runtime.Caller stk skip with
          | Some (file, line) =>
              let source := Sprintf_s_d file line in
              let sourceKey := "source" in
              let sourceKey :=
                if negb (String.eqb (SourceKey h) "") then SourceKey h
                else sourceKey in
              liftHeap (AddAttrs r [slog.String sourceKey source])
          | None => ret r
          end
        else ret r) ;;
  if isBackground ctx then
    delegate h ctx r
  else
    r <- match AppendAttrFromContext h with
         | Some f =>
             res <- liftWorld (liftExt (f ctx)) ;;
             match res with
             | (_, Some err) =>
                 liftWorld
                   (slog_Error "failed to append attributes from context"
                      [slog.String "error" err]) ;;;
                 ret r
             | (attrs, None) => liftHeap (AddAttrs r attrs)
             end
         | None => ret r
         end ;;
    delegate h ctx r.

End Methods.

End inplace.

(** ** Comparing two emitted lines *)

(** The slot a source attribute occupies on a line written by a handler
    with no open group: empty, or one string attribute under the key. *)
Definition sourceSlot (key : string) (s : list slog.QAttr) : Prop :=
  s = [] \/ exists v, s = [([], key, slog.StringValue v)].

(** Two lines agree on everything except the time stamp and the content
    of the source slot. *)
Definition sameModuloSourceAndTime (key : string) (l1 l2 : slog.Line) : Prop :=
  slog.line_json l1 = slog.line_json l2 /\
  slog.line_level l1 = slog.line_level l2 /\
  slog.line_builtin_source l1 = slog.line_builtin_source l2 /\
  slog.line_msg l1 = slog.line_msg l2 /\
  exists pre s1 s2 post,
    slog.line_attrs l1 = pre ++ s1 ++ post /\
    slog.line_attrs l2 = pre ++ s2 ++ post /\
    sourceSlot key s1 /\ sourceSlot key s2.

(** A line, and a record, with the time stamp taken off. *)
Definition withoutTime (l : slog.Line) : slog.Line :=
  {| slog.line_json := slog.line_json l;
     slog.line_time := None;
     slog.line_level := slog.line_level l;
     slog.line_builtin_source := slog.line_builtin_source l;
     slog.line_msg := slog.line_msg l;
     slog.line_attrs := slog.line_attrs l |}.

Definition withoutRecordTime (r : slog.Record) : slog.Record :=
  slog.mkRecord 0 (slog.Message r) (slog.Level_ r) (slog.PC r) (slog.attrs r).

(** Whether an attribute of a line is a source attribute: outside every
    group, under [key], a string. *)
Definition isSourceAttr (key : string) (q : slog.QAttr) : bool :=
  match q with
  | ([], k, slog.StringValue _) => String.eqb k key
  | _ => false
  end.

(** The lines of an output with their time stamps taken off. *)
Definition withoutTimes (o : slog.Output) : slog.Output :=
  map (fun l => (fst l, withoutTime (snd l))) o.

(** ** Example environments *)

Module Ex.

Import slogkit.

(** An in-memory buffer that accepts every write. *)
Definition buf : slog.Writer :=
  {| slog.fd := "buf"; slog.Write := fun _ => None |}.

(** The extractors of the test suite: one that succeeds and one that
    returns attributes together with an error; each counts its calls. *)
Definition requestAttrs : list slog.Attr :=
  [slog.String "request_id" "12345"; slog.String "user_id" "user-1"].

Definition succeeding : Extractor nat :=
  fun _ n => (requestAttrs, None, S n).

Definition failing : Extractor nat :=
  fun _ n => (requestAttrs, Some "context error", S n).

(** The configuration of the package's usage example, writing to [buf]. *)
Definition options (f : Extractor nat) : ContextHandlerOptions.t nat :=
  {| ContextHandlerOptions.UseJson := true;
     ContextHandlerOptions.Level := slog.LevelInfo;
     ContextHandlerOptions.AddSource := true;
     ContextHandlerOptions.SourceKey := "";
     ContextHandlerOptions.Writer := Some buf;
     ContextHandlerOptions.WithPID := true;
     ContextHandlerOptions.PIDKey := "";
     ContextHandlerOptions.CallerSkip := 0;
     ContextHandlerOptions.ExtraAttrs := [];
     ContextHandlerOptions.AppendAttrFromContext := Some f |}.

Definition pid : Z := 4242.

(** A standard output that accepts every write. *)
Definition stdout : slog.Writer :=
  {| slog.fd := "/dev/stdout"; slog.Write := fun _ => None |}.

Definition handler (f : Extractor nat) : ContextHandler nat slog.commonHandler :=
  NewContextHandler pid stdout (options f).

(** [logger.InfoContext(ctx, ...)] called at main.go:42: [Handle], the
    logger's [log], the logger's [InfoContext], the call site. *)
Definition stack : runtime.Stack :=
  runtime.ofFrames
    [("slogkit/context_handler.go", 85); ("log/slog/logger.go", 257);
     ("log/slog/logger.go", 230); ("main.go", 42);
     ("runtime/proc.go", 272)].

(** The stack [Handle] sees when [slog.Error] at line 105 of an outer
    [Handle] reaches it through the default logger. *)
Definition nestedStack : runtime.Stack :=
  runtime.ofFrames
    [("slogkit/context_handler.go", 85); ("log/slog/logger.go", 257);
     ("log/slog/logger.go", 304); ("slogkit/context_handler.go", 105);
     ("log/slog/logger.go", 257); ("log/slog/logger.go", 230);
     ("main.go", 42); ("runtime/proc.go", 272)].

(** A call from a goroutine started directly on [Handle]: nothing three
    frames up. *)
Definition shallowStack : runtime.Stack :=
  runtime.ofFrames
    [("slogkit/context_handler.go", 85); ("runtime/asm_amd64.s", 1700)].

Definition request : Context := WithValue Background "request_id" "req-12345".

Definition record : slog.Record :=
  slog.AddAttrs (slog.NewRecord 999 slog.LevelInfo "test message" 0)
    [slog.String "k" "v"].

(** A fresh process: nothing written, the library's initial default
    logger in place. *)
Definition fresh : World nat slog.Output slog.commonHandler :=
  {| ext := 0%nat; out := []; stderr := [];
     defaultLogger := InitialDefault; clock := 1000 |}.

(** The same after [slog.SetDefault(slog.New(handler))], as in the
    package's usage example. *)
Definition installed (f : Extractor nat)
  : World nat slog.Output slog.commonHandler :=
  {| ext := 0%nat; out := []; stderr := [];
     defaultLogger := InstalledDefault (handler f) nestedStack; clock := 1000 |}.

(** The report [slog.Error] builds for the failure of [failing]. *)
Definition diagnostic : slog.Record :=
  slog.AddAttrs
    (slog.NewRecord 1000 slog.LevelError
       "failed to append attributes from context" 0)
    [slog.String "error" "context error"].

(** [handler.WithAttrs(static=x).WithGroup(g)] *)
Definition grouped (f : Extractor nat) : ContextHandler nat slog.commonHandler :=
  WithGroup (WithAttrs (handler f) [slog.String "static" "x"]) "g".

(** A record below the configured minimum level. *)
Definition debugRecord : slog.Record :=
  slog.NewRecord 999 slog.LevelDebug "debug message" 0.

(** The same event logged a second later. *)
Definition laterRecord : slog.Record :=
  slog.AddAttrs (slog.NewRecord 2000 slog.LevelInfo "test message" 7)
    [slog.String "k" "v"].

End Ex.

(** ** Vocabulary for chains of derivations *)

(** The groups a chain of derivations opens, in order. *)
Fixpoint groupNames (ds : list slogkit.Derivation) : list string :=
  match ds with
  | [] => []
  | slogkit.ByAttrs _ :: ds' => groupNames ds'
  | slogkit.ByGroup name :: ds' => name :: groupNames ds'
  end.

(** The attributes a chain of derivations over a built-in handler adds,
    each list under the groups open when it is added. *)
Fixpoint chainAttrs (open : list string) (ds : list slogkit.Derivation)
  : list slog.QAttr :=
  match ds with
  | [] => []
  | slogkit.ByAttrs attrs :: ds' =>
      slog.appendAttrs open attrs ++ chainAttrs open ds'
  | slogkit.ByGroup name :: ds' => chainAttrs (open ++ [name]) ds'
  end.

(** The attribute the source step appends for given options and stack:
    none when add-source is off or the frame does not resolve. *)
Definition sourceAttr {E : Type} (o : slogkit.ContextHandlerOptions.t E)
  (stk : runtime.Stack) : list slog.Attr :=
  if slogkit.ContextHandlerOptions.AddSource o then
    match
      runtime.Caller stk
        (if slogkit.ContextHandlerOptions.CallerSkip o =? 0
         then 3 else slogkit.ContextHandlerOptions.CallerSkip o)
    with
    | Some (file, line) =>
        [slog.mkAttr
           (if String.eqb (slogkit.ContextHandlerOptions.SourceKey o) ""
            then "source" else slogkit.ContextHandlerOptions.SourceKey o)
           (slog.StringValue
              (file ++ ":" ++ NilZero.string_of_int (Z.to_int line))%string)]
    | None => []
    end
  else [].

(** The attribute baked for the process identifier: none when [WithPID]
    is off. *)
Definition pidAttr {E : Type} (pid : Z) (o : slogkit.ContextHandlerOptions.t E)
  : list slog.QAttr :=
  if slogkit.ContextHandlerOptions.WithPID o then
    [([], if String.eqb (slogkit.ContextHandlerOptions.PIDKey o) ""
          then "pid" else slogkit.ContextHandlerOptions.PIDKey o,
      slog.Int64Value pid)]
  else [].

(** ** Further example environments *)

Module Ex2.

Import slogkit.

(** A writer that rejects every line. *)
Definition broken : slog.Writer :=
  {| slog.fd := "broken"; slog.Write := fun _ => Some "disk full" |}.

(** Text output at warning level, no process identifier, no source. *)
Definition plain (f : Extractor nat) : ContextHandlerOptions.t nat :=
  {| ContextHandlerOptions.UseJson := false;
     ContextHandlerOptions.Level := slog.LevelWarn;
     ContextHandlerOptions.AddSource := false;
     ContextHandlerOptions.SourceKey := "file_location";
     ContextHandlerOptions.Writer := Some broken;
     ContextHandlerOptions.WithPID := false;
     ContextHandlerOptions.PIDKey := "process_id";
     ContextHandlerOptions.CallerSkip := 7;
     ContextHandlerOptions.ExtraAttrs := [slog.String "service" "test"];
     ContextHandlerOptions.AppendAttrFromContext := Some f |}.

(** An extractor whose attribute depends on how often it has run. *)
Definition numbering : Extractor nat :=
  fun _ n => ([slog.Int "seq" (Z.of_nat n)], None, S n).

(** No array allocated yet; reallocations double the capacity. *)
Definition emptyHeap : inplace.Heap :=
  {| inplace.arrays := []; inplace.growth := fun c _ => (2 * c)%nat |}.

(** A record given eight attributes by eight calls of [AddAttrs]: five
    inline, three in [back], which then has capacity four. *)
Definition eight : inplace.Record * inplace.Heap :=
  fold_left (fun st a => inplace.AddAttrs (fst st) [a] (snd st))
    (map (fun k => slog.Int k 1)
       ["a1"; "a2"; "a3"; "a4"; "a5"; "a6"; "a7"; "a8"])
    (inplace.NewRecord 999 slog.LevelInfo "test message" 0, emptyHeap).

(** The record of the examples above, stored: one attribute, inline. *)
Definition stored : inplace.Record * inplace.Heap :=
  inplace.AddAttrs (inplace.NewRecord 999 slog.LevelInfo "test message" 0)
    [slog.String "k" "v"] emptyHeap.

(** The eight-attribute record handed to the usage example's handler,
    and then handed to it again. *)
Definition firstCall
  : option error * (World nat slog.Output slog.commonHandler * inplace.Heap) :=
  inplace.Handle (Ex.handler Ex.succeeding) Ex.stack Background (fst eight)
    (Ex.fresh, snd eight).

Definition secondCall
  : option error * (World nat slog.Output slog.commonHandler * inplace.Heap) :=
  inplace.Handle (Ex.handler Ex.succeeding) Ex.stack Background (fst eight)
    (snd firstCall).

(** The usage example's handler with the numbering extractor. *)
Definition numbered : ContextHandler nat slog.commonHandler :=
  NewContextHandler Ex.pid Ex.stdout (Ex.options numbering).

(** Two events logged one after the other through two handlers built
    from the same options, each with a record of its own that reads as
    [stored]. *)
Definition firstEvent
  : option error * (World nat slog.Output slog.commonHandler * inplace.Heap) :=
  inplace.Handle (NewContextHandler Ex.pid Ex.stdout (Ex.options numbering))
    Ex.stack Ex.request (fst stored) (Ex.fresh, snd stored).

Definition secondEvent
  : option error * (World nat slog.Output slog.commonHandler * inplace.Heap) :=
  inplace.Handle (NewContextHandler Ex.pid Ex.stdout (Ex.options numbering))
    Ex.stack Ex.request (fst stored) (snd firstEvent).

(** The record of [stored] built a second later, at another place. *)
Definition storedLater : inplace.Record * inplace.Heap :=
  inplace.AddAttrs (inplace.NewRecord 2000 slog.LevelInfo "test message" 7)
    [slog.String "k" "v"] emptyHeap.

(** The process of [Ex.installed] a second later. *)
Definition installedLater (f : Extractor nat)
  : World nat slog.Output slog.commonHandler :=
  {| ext := 0%nat; out := []; stderr := [];
     defaultLogger := InstalledDefault (Ex.handler f) Ex.nestedStack;
     clock := 2000 |}.

End Ex2.

(** * Properties *)

Import slogkit.

(** ** Records *)

Lemma AddAttrs_nil (r : slog.Record) : slog.AddAttrs r [] = r.
Proof.
  destruct r as [t m l pc al]. unfold slog.AddAttrs. simpl.
  now rewrite app_nil_r.
Qed.

Lemma AddAttrs_String (r : slog.Record) (key value : string) :
  slog.AddAttrs r [slog.String key value] =
  slog.mkRecord (slog.Time r) (slog.Message r) (slog.Level_ r) (slog.PC r)
    (slog.attrs r ++ [slog.mkAttr key (slog.StringValue value)]).
Proof. reflexivity. Qed.

Lemma AddAttrs_builtins (r : slog.Record) (al : list slog.Attr) :
  slog.Time (slog.AddAttrs r al) = slog.Time r /\
  slog.Message (slog.AddAttrs r al) = slog.Message r /\
  slog.Level_ (slog.AddAttrs r al) = slog.Level_ r /\
  slog.PC (slog.AddAttrs r al) = slog.PC r.
Proof. repeat split. Qed.

(** ** The decorator over an arbitrary sink *)

Section AnySink.

Context {E O H : Type} {sink : slog.Handler O H}.

Implicit Types (h : ContextHandler E H) (wd : World E O H)
  (stk : runtime.Stack) (ctx : Context) (r : slog.Record).

(** The source step leaves the built-in fields alone and appends at
    most one attribute. *)
Lemma addSource_builtins h stk r :
  slog.Time (addSource h stk r) = slog.Time r /\
  slog.Message (addSource h stk r) = slog.Message r /\
  slog.Level_ (addSource h stk r) = slog.Level_ r /\
  slog.PC (addSource h stk r) = slog.PC r.
Proof.
  unfold addSource.
  destruct (AddSource h); [|repeat split].
  destruct (runtime.Caller _ _) as [[file line]|]; repeat split.
Qed.

Lemma addSource_withoutSource h stk r : addSource (withoutSource h) stk r = r.
Proof. reflexivity. Qed.

(** On the background context [Handle] is the source step followed by
    delegation. *)
Lemma Handle_Background h stk r :
  Handle h stk Background r =
  liftOut (slog.Handle (Handler h) Background (addSource h stk r)).
Proof. reflexivity. Qed.

(** An installed default logger whose level admits errors turns
    [slog.Error] into a call of its handler's [Handle]. *)
Lemma slog_Error_is_Handle wd h0 stk0 msg args :
  defaultLogger wd = InstalledDefault h0 stk0 ->
  Enabled h0 Background slog.LevelError = true ->
  slog_Error msg args wd =
  (Handle h0 stk0 Background
     (slog.AddAttrs (slog.NewRecord (clock wd) slog.LevelError msg 0) args) ;;;
   ret tt) wd.
Proof.
  intros Hd He. unfold slog_Error. rewrite Hd.
  unfold Enabled in He. rewrite He. now rewrite Handle_Background.
Qed.

(** Failure of the extractor, whatever the default logger is: the
    extractor runs once, [slog.Error] is called once, and the record is
    delegated with the source step's attribute only. *)
Lemma Handle_failure_steps h stk ctx r wd f attrs err e' :
  isBackground ctx = false ->
  AppendAttrFromContext h = Some f ->
  f ctx (ext wd) = (attrs, Some err, e') ->
  Handle h stk ctx r wd =
  (slog_Error "failed to append attributes from context"
     [slog.String "error" err] ;;;
   liftOut (slog.Handle (Handler h) ctx (addSource h stk r))) (set_ext wd e').
Proof.
  intros Hb Hf Hr. unfold Handle. rewrite Hb, Hf.
  unfold bind at 1 2. unfold liftExt. rewrite Hr. unfold bind.
  destruct (slog_Error _ _ _) as [[] wd1]. reflexivity.
Qed.

(** Every call ends in one delegation to the wrapped sink, of the record
    extended by the source step and by what the context contributes. *)
Lemma Handle_delegates h stk ctx r wd :
  exists wd1,
    Handle h stk ctx r wd =
    liftOut (slog.Handle (Handler h) ctx
               (slog.AddAttrs (addSource h stk r) (contextAttrs h ctx (ext wd)))) wd1.
Proof.
  unfold Handle, contextAttrs.
  destruct (isBackground ctx).
  - exists wd. now rewrite AddAttrs_nil.
  - destruct (AppendAttrFromContext h) as [f|].
    + unfold bind at 1 2. unfold liftExt.
      destruct (f ctx (ext wd)) as [[attrs [err|]] e'].
      * unfold bind.
        destruct (slog_Error _ _ _) as [[] wd1].
        exists wd1. now rewrite AddAttrs_nil.
      * exists (set_ext wd e'). reflexivity.
    + exists wd. unfold bind, ret. now rewrite AddAttrs_nil.
Qed.

(** Derivation steps never touch the enrichment configuration. *)
Lemma derive1_configuration h d :
  Handler (derive1 h d) = deriveSink1 (Handler h) d /\
  AddSource (derive1 h d) = AddSource h /\
  SourceKey (derive1 h d) = SourceKey h /\
  CallerSkip (derive1 h d) = CallerSkip h /\
  AppendAttrFromContext (derive1 h d) = AppendAttrFromContext h.
Proof. destruct d; repeat split. Qed.

Lemma derive_configuration ds : forall h,
  Handler (derive ds h) = deriveSink ds (Handler h) /\
  AddSource (derive ds h) = AddSource h /\
  SourceKey (derive ds h) = SourceKey h /\
  CallerSkip (derive ds h) = CallerSkip h /\
  AppendAttrFromContext (derive ds h) = AppendAttrFromContext h.
Proof.
  induction ds as [|d ds IH]; intros h.
  - repeat split.
  - unfold derive, deriveSink in *. simpl.
    destruct (IH (derive1 h d)) as (IH1 & IH2 & IH3 & IH4 & IH5).
    destruct (derive1_configuration h d) as (D1 & D2 & D3 & D4 & D5).
    rewrite IH1, IH2, IH3, IH4, IH5, D1, D2, D3, D4, D5. repeat split.
Qed.

End AnySink.

Section Decorator.

Context {E O H : Type} {sink : slog.Handler O H}.

Implicit Types (h : ContextHandler E H) (wd : World E O H)
  (stk : runtime.Stack) (ctx : Context) (r : slog.Record).

(** C1, as amended.  When the extractor fails on a non-background context,
    [Handle] runs it once, reports the failure by exactly one call of
    [slog.Error], that is, to the process-wide default logger, and then
    delegates the record carrying the source attribute only: none of the
    attributes the extractor returned, and the result is the sink's, not
    the extractor's error.  With the library's initial default logger the
    report lands on standard error exactly once and the sink receives the
    record alone.  With a [ContextHandler] installed as default logger and
    admitting errors, this very handler included, the report is a call of
    that handler's [Handle] on the background context, ahead of the
    delegation. *)
Theorem Handle_extractor_failure h stk ctx r wd f attrs err e' :
  isBackground ctx = false ->
  AppendAttrFromContext h = Some f ->
  f ctx (ext wd) = (attrs, Some err, e') ->
  Handle h stk ctx r wd =
    (slog_Error "failed to append attributes from context"
       [slog.String "error" err] ;;;
     liftOut (slog.Handle (Handler h) ctx (addSource h stk r))) (set_ext wd e')
  /\
  (defaultLogger wd = InitialDefault ->
   Handle h stk ctx r wd =
     (let '(res, o) :=
        slog.Handle (Handler h) ctx (addSource h stk r) (out wd) in
      (res,
       {| ext := e'; out := o;
          stderr :=
            stderr wd ++
            [slog.mkRecord (clock wd) "failed to append attributes from context"
               slog.LevelError 0 [slog.mkAttr "error" (slog.StringValue err)]];
          defaultLogger := InitialDefault;
          clock := clock wd |})))
  /\
  (forall h0 stk0,
     defaultLogger wd = InstalledDefault h0 stk0 ->
     Enabled h0 Background slog.LevelError = true ->
     Handle h stk ctx r wd =
       (Handle h0 stk0 Background
          (slog.mkRecord (clock wd) "failed to append attributes from context"
             slog.LevelError 0 [slog.mkAttr "error" (slog.StringValue err)]) ;;;
        liftOut (slog.Handle (Handler h) ctx (addSource h stk r)))
         (set_ext wd e')).
Proof.
  intros Hb Hf Hr.
  pose proof (Handle_failure_steps h stk ctx r wd f attrs err e' Hb Hf Hr) as Hs.
  split; [exact Hs|]. split.
  - intros Hd. rewrite Hs.
    unfold bind, slog_Error, liftOut. simpl. rewrite Hd. simpl.
    destruct (slog.Handle _ _ _ _) as [res o].
    unfold set_out. simpl. rewrite ?Hd. reflexivity.
  - intros h0 stk0 Hd He. rewrite Hs.
    unfold bind.
    rewrite (slog_Error_is_Handle (set_ext wd e') h0 stk0 _ _ Hd He).
    unfold bind, ret. simpl.
    destruct (Handle h0 stk0 Background _ _) as [res0 wd0]. reflexivity.
Qed.

(** C2.  On the background context the extractor is not consulted: the
    call is exactly the delegation of the record (after the source step)
    to the wrapped sink, and the extractor's captured state, hence any
    call counter it keeps, is what it was. *)
Theorem Handle_Background_skips_extractor h stk r wd :
  Handle h stk Background r wd =
    (let '(res, o) :=
       slog.Handle (Handler h) Background (addSource h stk r) (out wd) in
     (res, set_out wd o))
  /\ ext (snd (Handle h stk Background r wd)) = ext wd
  /\ stderr (snd (Handle h stk Background r wd)) = stderr wd.
Proof.
  rewrite Handle_Background. unfold liftOut.
  destruct (slog.Handle _ _ _ _) as [res o]. repeat split.
Qed.

(** C4.  [WithAttrs] and [WithGroup] each build a handler around the sink
    derived by the wrapped sink's own operation and copy the enrichment
    configuration; so does any chain of them.  The receiver is a value
    and is not changed. *)
Theorem derivations_preserve_enrichment h attrs name ds :
  (Handler (WithAttrs h attrs) = slog.WithAttrs (Handler h) attrs /\
   sameEnrichment h (WithAttrs h attrs)) /\
  (Handler (WithGroup h name) = slog.WithGroup (Handler h) name /\
   sameEnrichment h (WithGroup h name)) /\
  (Handler (derive ds h) = deriveSink ds (Handler h) /\
   sameEnrichment h (derive ds h)).
Proof.
  split; [|split].
  - repeat split.
  - repeat split.
  - destruct (derive_configuration ds h) as (D1 & D2 & D3 & D4 & D5).
    unfold sameEnrichment. auto.
Qed.

(** C6.  The value [Handle] returns is the value the wrapped sink's
    [Handle] returned for the enriched record: the call ends in that
    delegation whatever the source step and the extractor did. *)
Theorem Handle_returns_sink_result h stk ctx r wd :
  exists r' wd1,
    r' = slog.AddAttrs (addSource h stk r) (contextAttrs h ctx (ext wd)) /\
    Handle h stk ctx r wd = liftOut (slog.Handle (Handler h) ctx r') wd1 /\
    fst (Handle h stk ctx r wd) = fst (slog.Handle (Handler h) ctx r' (out wd1)).
Proof.
  destruct (Handle_delegates h stk ctx r wd) as [wd1 Hd].
  eexists; exists wd1. split; [reflexivity|]. split; [exact Hd|].
  rewrite Hd. unfold liftOut.
  destruct (slog.Handle _ _ _ _) as [res o]. reflexivity.
Qed.

End Decorator.

(** ** The decorator over the built-in handlers *)

Lemma appendAttrs_app (prefix : list string) (l1 l2 : list slog.Attr) :
  slog.appendAttrs prefix (l1 ++ l2) =
  slog.appendAttrs prefix l1 ++ slog.appendAttrs prefix l2.
Proof.
  induction l1 as [|[k v] l1 IH]; simpl; [reflexivity|].
  now rewrite IH, app_assoc.
Qed.

Section BuiltinSink.

Context {E : Type}.

Implicit Types (h : ContextHandler E slog.commonHandler)
  (wd : World E slog.Output slog.commonHandler)
  (o : ContextHandlerOptions.t E) (os_Stdout : slog.Writer)
  (stk : runtime.Stack) (ctx : Context) (r : slog.Record).

(** Deriving a built-in handler keeps its format, options and writer and
    only adds to the attributes already formatted. *)
Lemma deriveSink_builtin ds : forall s : slog.commonHandler,
  slog.json (deriveSink ds s) = slog.json s /\
  slog.opts (deriveSink ds s) = slog.opts s /\
  slog.w (deriveSink ds s) = slog.w s /\
  exists more,
    slog.preformattedAttrs (deriveSink ds s) = slog.preformattedAttrs s ++ more.
Proof.
  induction ds as [|d ds IH]; intros s.
  - repeat split. exists []. now rewrite app_nil_r.
  - unfold deriveSink in *. simpl.
    destruct (IH (deriveSink1 s d)) as (J & Op & Wr & more & P).
    rewrite J, Op, Wr, P. destruct d; simpl; repeat split.
    + eexists. now rewrite <- app_assoc.
    + now exists more.
Qed.

(** The sink [NewContextHandler] builds. *)
Lemma NewContextHandler_sink pid os_Stdout o :
  let s := Handler (NewContextHandler pid os_Stdout o) in
  let pidKey :=
    if String.eqb (ContextHandlerOptions.PIDKey o) ""
    then "pid" else ContextHandlerOptions.PIDKey o in
  slog.json s = ContextHandlerOptions.UseJson o /\
  slog.opts s =
    {| slog.opt_AddSource := false;
       slog.opt_Level := ContextHandlerOptions.Level o |} /\
  slog.w s =
    match ContextHandlerOptions.Writer o with
    | None => os_Stdout
    | Some wr => wr
    end /\
  slog.groups s = [] /\
  slog.preformattedAttrs s =
    (if ContextHandlerOptions.WithPID o
     then [([], pidKey, slog.Int64Value pid)] else []) ++
    slog.appendAttrs [] (ContextHandlerOptions.ExtraAttrs o).
Proof.
  destruct o as [js lv src sk wr wp pk cs extra f].
  unfold NewContextHandler. simpl.
  destruct js, wp, extra as [|a extra], (String.eqb pk ""); simpl;
    repeat split; try destruct a; reflexivity.
Qed.

(** Closes a goal that names the final world of a call and what it has
    written. *)
Ltac written :=
  eexists; split; [reflexivity|];
  split; [simpl; rewrite <- ?app_assoc; reflexivity | simpl; lia].

(** One call writes the record's line last, after at most one line of
    diagnostics, and returns the writer's answer. *)
Lemma Handle_builtin h stk ctx r wd :
  let line :=
    slog.format (Handler h)
      (slog.AddAttrs (addSource h stk r) (contextAttrs h ctx (ext wd))) in
  exists diag wd',
    Handle h stk ctx r wd = (slog.Write (slog.w (Handler h)) line, wd') /\
    out wd' = out wd ++ diag ++ [(slog.fd (slog.w (Handler h)), line)] /\
    (List.length diag <= 1)%nat.
Proof.
  unfold Handle, contextAttrs.
  destruct (isBackground ctx).
  - exists []. rewrite AddAttrs_nil. written.
  - destruct (AppendAttrFromContext h) as [f|].
    + unfold bind, liftExt.
      destruct (f ctx (ext wd)) as [[attrs [err|]] e'].
      * rewrite AddAttrs_nil. unfold slog_Error. simpl.
        destruct (defaultLogger wd) as [|h0 stk0].
        -- exists []. written.
        -- destruct (slog.enabled (Handler h0) slog.LevelError).
           ++ eexists [_]. written.
           ++ exists []. written.
      * exists []. written.
    + exists []. rewrite AddAttrs_nil. written.
Qed.

(** C5.  With [WithPID] set, the line written for any record, by the
    constructed handler or by any handler derived from it through
    [WithAttrs] and [WithGroup], carries the process identifier under
    [PIDKey] (["pid"] when empty), outside every group, as its first
    attribute. *)
Theorem pid_in_every_emitted_record pid os_Stdout o ds stk ctx r wd :
  ContextHandlerOptions.WithPID o = true ->
  let h := derive ds (NewContextHandler pid os_Stdout o) in
  let pidKey :=
    if String.eqb (ContextHandlerOptions.PIDKey o) ""
    then "pid" else ContextHandlerOptions.PIDKey o in
  exists before line rest,
    out (snd (Handle h stk ctx r wd)) =
      before ++ [(slog.fd (slog.w (Handler h)), line)] /\
    slog.line_msg line = slog.Message r /\
    slog.line_level line = slog.Level_ r /\
    slog.line_attrs line = ([], pidKey, slog.Int64Value pid) :: rest.
Proof.
  intros Hp h pidKey.
  destruct (Handle_builtin h stk ctx r wd) as (diag & wd' & Hh & Ho & _).
  rewrite Hh. simpl snd.
  destruct (derive_configuration ds (NewContextHandler pid os_Stdout o)) as (D & _).
  destruct (deriveSink_builtin ds (Handler (NewContextHandler pid os_Stdout o)))
    as (_ & _ & _ & more & P).
  destruct (NewContextHandler_sink pid os_Stdout o) as (_ & _ & _ & _ & Q).
  rewrite Hp in Q.
  eexists; eexists; eexists. split; [|split; [|split]].
  - rewrite Ho. rewrite app_assoc. reflexivity.
  - simpl. apply addSource_builtins.
  - simpl. apply addSource_builtins.
  - simpl. fold h. unfold h at 1. rewrite D, P, Q. simpl. reflexivity.
Qed.


End BuiltinSink.

Section BuiltinHandlers.

Context {E : Type}.

Implicit Types (h : ContextHandler E slog.commonHandler)
  (wd : World E slog.Output slog.commonHandler)
  (o : ContextHandlerOptions.t E) (os_Stdout : slog.Writer)
  (stk : runtime.Stack) (ctx : Context) (r : slog.Record).

(** The level check of a constructed or derived handler compares with the
    configured minimum. *)
Lemma Enabled_minimum pid os_Stdout o ds ctx level :
  Enabled (derive ds (NewContextHandler pid os_Stdout o)) ctx level =
  (ContextHandlerOptions.Level o <=? level).
Proof.
  destruct (derive_configuration ds (NewContextHandler pid os_Stdout o)) as (D & _).
  destruct (deriveSink_builtin ds (Handler (NewContextHandler pid os_Stdout o)))
    as (_ & Op & _).
  destruct (NewContextHandler_sink pid os_Stdout o) as (_ & Q & _).
  unfold Enabled. simpl. unfold slog.enabled.
  rewrite D, Op, Q. reflexivity.
Qed.

(** The attributes of a record after the source step. *)
Lemma attrs_addSource h stk r :
  slog.attrs (addSource h stk r) =
  slog.attrs r ++
  (if AddSource h then
     match runtime.Caller stk (if CallerSkip h =? 0 then 3 else CallerSkip h) with
     | Some (file, line) =>
         [slog.mkAttr
            (if String.eqb (SourceKey h) "" then "source" else SourceKey h)
            (slog.StringValue (Sprintf_s_d file line))]
     | None => []
     end
   else []).
Proof.
  unfold addSource.
  destruct (AddSource h); [|now rewrite app_nil_r].
  destruct (runtime.Caller _ _) as [[file line]|]; [|now rewrite app_nil_r].
  destruct (String.eqb (SourceKey h) ""); reflexivity.
Qed.

(** C7.  The handler's level check is the check of the wrapped built-in
    handler, which compares the level with the configured minimum; and a
    logger over the handler writes a line for a logged event exactly when
    the event's level is at least that minimum. *)
Theorem level_gate pid os_Stdout o ds stk ctx level msg args wd :
  let h := derive ds (NewContextHandler pid os_Stdout o) in
  Enabled h ctx level = slog.Enabled (Handler h) ctx level /\
  Enabled h ctx level = (ContextHandlerOptions.Level o <=? level) /\
  ((exists diag line,
      out (snd (Logger_log h stk ctx level msg args wd)) =
        out wd ++ diag ++ [(slog.fd (slog.w (Handler h)), line)] /\
      slog.line_level line = level /\
      slog.line_msg line = msg)
   <-> ContextHandlerOptions.Level o <= level).
Proof.
  intros h. split; [reflexivity|].
  pose proof (Enabled_minimum pid os_Stdout o ds ctx level) as He. fold h in He.
  split; [exact He|].
  unfold Logger_log. rewrite He.
  destruct (Z.leb_spec (ContextHandlerOptions.Level o) level) as [Hle|Hlt]; simpl.
  - split; [intros _; exact Hle|intros _].
    unfold bind.
    destruct (Handle_builtin h stk ctx
                (slog.AddAttrs (slog.NewRecord (clock wd) level msg 0) args) wd)
      as (diag & wd' & Hh & Ho & _).
    rewrite Hh. simpl. exists diag. eexists. split; [exact Ho|].
    split; simpl; apply addSource_builtins.
  - split; [|lia].
    intros (diag & line & Ho & _). exfalso.
    apply (f_equal (@List.length _)) in Ho.
    rewrite !length_app in Ho. simpl in Ho. lia.
Qed.

(** The constructor copies the enrichment options. *)
Lemma NewContextHandler_configuration pid os_Stdout o :
  AddSource (NewContextHandler pid os_Stdout o) = ContextHandlerOptions.AddSource o /\
  SourceKey (NewContextHandler pid os_Stdout o) = ContextHandlerOptions.SourceKey o /\
  CallerSkip (NewContextHandler pid os_Stdout o) = ContextHandlerOptions.CallerSkip o /\
  AppendAttrFromContext (NewContextHandler pid os_Stdout o) =
    ContextHandlerOptions.AppendAttrFromContext o.
Proof. repeat split. Qed.

(** What [Handle] appends to a record: the source attribute, if any, then
    the context's attributes that are not empty groups. *)
Lemma attrs_enriched h stk ctx r wd :
  slog.attrs (slog.AddAttrs (addSource h stk r) (contextAttrs h ctx (ext wd))) =
  slog.attrs r ++
  (if AddSource h then
     match runtime.Caller stk (if CallerSkip h =? 0 then 3 else CallerSkip h) with
     | Some (file, line) =>
         [slog.mkAttr
            (if String.eqb (SourceKey h) "" then "source" else SourceKey h)
            (slog.StringValue (Sprintf_s_d file line))]
     | None => []
     end
   else []) ++
  filter (fun a => negb (slog.isEmptyGroup (slog.Val a)))
    (contextAttrs h ctx (ext wd)).
Proof.
  unfold slog.AddAttrs at 1. cbn [slog.attrs].
  now rewrite attrs_addSource, <- app_assoc.
Qed.

(** The line of a handler derived with [static=x] and then the group [g]
    from a handler with no open group. *)
Lemma derived_line h0 (r' : slog.Record) (appended : list slog.Attr) :
  slog.groups (Handler h0) = [] ->
  slog.attrs r' = [slog.String "k" "v"] ++ appended ->
  slog.line_attrs
    (slog.format
       (Handler (WithGroup (WithAttrs h0 [slog.String "static" "x"]) "g")) r') =
  slog.preformattedAttrs (Handler h0) ++
  [([], "static", slog.StringValue "x"); (["g"], "k", slog.StringValue "v")] ++
  slog.appendAttrs ["g"] appended.
Proof.
  intros G Hr. simpl. rewrite G, Hr. simpl.
  now rewrite <- app_assoc.
Qed.

(** The source step fills the source slot of a line and nothing else. *)
Lemma sourceSlot_addSource h stk :
  sourceSlot (if String.eqb (SourceKey h) "" then "source" else SourceKey h)
    (slog.appendAttrs []
       (if AddSource h then
          match runtime.Caller stk (if CallerSkip h =? 0 then 3 else CallerSkip h) with
          | Some (file, line) =>
              [slog.mkAttr
                 (if String.eqb (SourceKey h) "" then "source" else SourceKey h)
                 (slog.StringValue (Sprintf_s_d file line))]
          | None => []
          end
        else [])).
Proof.
  destruct (AddSource h); [|now left].
  destruct (runtime.Caller _ _) as [[file line]|]; [|now left].
  right. eexists. reflexivity.
Qed.

(** Two calls of one handler without open groups, on records that agree
    except for time and program counter, from equal extractor states,
    format lines that agree except for time and source. *)
Lemma same_line h stk1 stk2 ctx r1 r2 wd1 wd2 :
  slog.groups (Handler h) = [] ->
  slog.opt_AddSource (slog.opts (Handler h)) = false ->
  slog.Message r1 = slog.Message r2 ->
  slog.Level_ r1 = slog.Level_ r2 ->
  slog.attrs r1 = slog.attrs r2 ->
  ext wd1 = ext wd2 ->
  sameModuloSourceAndTime
    (if String.eqb (SourceKey h) "" then "source" else SourceKey h)
    (slog.format (Handler h)
       (slog.AddAttrs (addSource h stk1 r1) (contextAttrs h ctx (ext wd1))))
    (slog.format (Handler h)
       (slog.AddAttrs (addSource h stk2 r2) (contextAttrs h ctx (ext wd2)))).
Proof.
  intros G S Hm Hl Ha He.
  unfold sameModuloSourceAndTime.
  split; [reflexivity|].
  split.
  { cbn [slog.format slog.line_level].
    destruct (addSource_builtins h stk1 r1) as (_ & _ & L1 & _).
    destruct (addSource_builtins h stk2 r2) as (_ & _ & L2 & _).
    cbn [slog.AddAttrs slog.Level_]. now rewrite L1, L2. }
  split.
  { cbn [slog.format slog.line_builtin_source]. now rewrite S. }
  split.
  { cbn [slog.format slog.line_msg].
    destruct (addSource_builtins h stk1 r1) as (_ & M1 & _).
    destruct (addSource_builtins h stk2 r2) as (_ & M2 & _).
    cbn [slog.AddAttrs slog.Message]. now rewrite M1, M2. }
  cbn [slog.format slog.line_attrs].
  rewrite !attrs_enriched, G, !appendAttrs_app, <- He, <- Ha.
  eexists (_ ++ _), _, _, _.
  split; [rewrite <- app_assoc; reflexivity|].
  split; [rewrite <- app_assoc; reflexivity|].
  split; apply sourceSlot_addSource.
Qed.

End BuiltinHandlers.

(** ** Concrete runs *)

(** The extractors of the examples count their calls: none on the
    background context, one on a request context. *)
Example background_context_counts_no_call :
  ext (snd (Handle (Ex.handler Ex.succeeding) Ex.stack Background Ex.record Ex.fresh))
    = 0%nat /\
  ext (snd (Handle (Ex.handler Ex.succeeding) Ex.stack Ex.request Ex.record Ex.fresh))
    = 1%nat.
Proof. split; reflexivity. Qed.

(** The line of the usage example for a request: process identifier, the
    record's own attribute, the caller's location, the request's
    attributes. *)
Example request_line :
  map (fun l => slog.line_attrs (snd l))
    (out (snd (Handle (Ex.handler Ex.succeeding) Ex.stack Ex.request Ex.record
                 Ex.fresh))) =
  [[([], "pid", slog.Int64Value 4242);
    ([], "k", slog.StringValue "v");
    ([], "source", slog.StringValue "main.go:42");
    ([], "request_id", slog.StringValue "12345");
    ([], "user_id", slog.StringValue "user-1")]].
Proof. reflexivity. Qed.

(** A record below the minimum: the level check says no and a logger
    writes nothing, yet [Handle] called directly writes the line. *)
Example direct_call_below_minimum :
  Enabled (Ex.handler Ex.succeeding) Ex.request slog.LevelDebug = false /\
  out (snd (Logger_log (Ex.handler Ex.succeeding) Ex.stack Ex.request
              slog.LevelDebug "debug message" [] Ex.fresh)) = [] /\
  map (fun l => (slog.line_level (snd l), slog.line_msg (snd l)))
    (out (snd (Handle (Ex.handler Ex.succeeding) Ex.stack Ex.request
                 Ex.debugRecord Ex.fresh))) =
  [(slog.LevelDebug, "debug message")].
Proof. repeat split. Qed.

(** C1, counterexample.  In the package's usage example the handler is
    installed as the default logger.  The report of a failed extraction
    then goes through this same handler: the call is one [Handle] of the
    handler for the report followed by the delegation of the record, both
    lines end up in the handler's own sink, the report first, and nothing
    reaches standard error. *)
Lemma diagnostic_reenters_handler :
  defaultLogger (Ex.installed Ex.failing) =
    InstalledDefault (Ex.handler Ex.failing) Ex.nestedStack /\
  Handle (Ex.handler Ex.failing) Ex.stack Ex.request Ex.record
    (Ex.installed Ex.failing) =
  (Handle (Ex.handler Ex.failing) Ex.nestedStack Background Ex.diagnostic ;;;
   Handle (Ex.handler Ex.failing) Ex.stack Background Ex.record)
    (set_ext (Ex.installed Ex.failing) 1%nat) /\
  stderr (snd (Handle (Ex.handler Ex.failing) Ex.stack Ex.request Ex.record
                 (Ex.installed Ex.failing))) = [] /\
  map (fun l => (fst l, slog.line_msg (snd l), slog.line_attrs (snd l)))
    (out (snd (Handle (Ex.handler Ex.failing) Ex.stack Ex.request Ex.record
                 (Ex.installed Ex.failing)))) =
  [("buf", "failed to append attributes from context",
    [([], "pid", slog.Int64Value 4242);
     ([], "error", slog.StringValue "context error");
     ([], "source", slog.StringValue "slogkit/context_handler.go:105")]);
   ("buf", "test message",
    [([], "pid", slog.Int64Value 4242);
     ([], "k", slog.StringValue "v");
     ([], "source", slog.StringValue "main.go:42")])].
Proof. repeat split. Qed.

(** C1, instance of the amended statement: the failing extractor of the
    test suite in a fresh process. *)
Lemma Handle_extractor_failure_witness :
  isBackground Ex.request = false /\
  AppendAttrFromContext (Ex.handler Ex.failing) = Some Ex.failing /\
  Ex.failing Ex.request (ext Ex.fresh) =
    (Ex.requestAttrs, Some "context error", 1%nat) /\
  stderr (snd (Handle (Ex.handler Ex.failing) Ex.stack Ex.request Ex.record
                 Ex.fresh)) = [Ex.diagnostic] /\
  map (fun l => slog.line_msg (snd l))
    (out (snd (Handle (Ex.handler Ex.failing) Ex.stack Ex.request Ex.record
                 Ex.fresh))) = ["test message"].
Proof.
  split; [reflexivity|]. split; [reflexivity|]. split; [reflexivity|].
  destruct (Handle_extractor_failure (Ex.handler Ex.failing) Ex.stack
              Ex.request Ex.record Ex.fresh Ex.failing Ex.requestAttrs
              "context error" 1%nat eq_refl eq_refl eq_refl) as (_ & Hi & _).
  rewrite (Hi eq_refl). split; reflexivity.
Defined.

(** C5, instance: the usage example's handler after [WithAttrs] and
    [WithGroup]. *)
Lemma pid_in_every_emitted_record_witness :
  ContextHandlerOptions.WithPID (Ex.options Ex.succeeding) = true /\
  exists before line rest,
    out (snd (Handle (Ex.grouped Ex.succeeding) Ex.stack Ex.request Ex.record
                Ex.fresh)) = before ++ [("buf", line)] /\
    slog.line_msg line = "test message" /\
    slog.line_level line = slog.LevelInfo /\
    slog.line_attrs line = ([], "pid", slog.Int64Value 4242) :: rest.
Proof.
  split; [reflexivity|].
  exact (pid_in_every_emitted_record Ex.pid Ex.stdout (Ex.options Ex.succeeding)
           [ByAttrs [slog.String "static" "x"]; ByGroup "g"]
           Ex.stack Ex.request Ex.record Ex.fresh eq_refl).
Defined.

(** C8, counterexample.  Add-source is enabled, but the call comes from a
    stack with nothing three frames up: the line is written and has no
    attribute under the source key. *)
Lemma source_absent_when_unresolved :
  AddSource (Ex.grouped Ex.succeeding) = true /\
  map (fun l => slog.line_attrs (snd l))
    (out (snd (Handle (Ex.grouped Ex.succeeding) Ex.shallowStack Ex.request
                 Ex.record Ex.fresh))) =
  [[([], "pid", slog.Int64Value 4242);
    ([], "static", slog.StringValue "x");
    (["g"], "k", slog.StringValue "v");
    (["g"], "request_id", slog.StringValue "12345");
    (["g"], "user_id", slog.StringValue "user-1")]].
Proof. split; reflexivity. Qed.

(** * Further properties of the decorator *)

Section DecoratorMore.

Context {E O H : Type} {sink : slog.Handler O H}.

Implicit Types (h : ContextHandler E H) (wd : World E O H)
  (stk : runtime.Stack) (ctx : Context) (r : slog.Record).

(** [slog.Error] leaves the extractor's state, the default logger and the
    clock alone, and puts at most one record on standard error. *)
Lemma slog_Error_frame msg args wd :
  ext (snd (slog_Error msg args wd)) = ext wd /\
  defaultLogger (snd (slog_Error msg args wd)) = defaultLogger wd /\
  clock (snd (slog_Error msg args wd)) = clock wd /\
  exists l, stderr (snd (slog_Error msg args wd)) = stderr wd ++ l /\
            (List.length l <= 1)%nat.
Proof.
  unfold slog_Error.
  destruct (defaultLogger wd) as [|h0 stk0] eqn:Hd.
  - simpl. rewrite Hd. repeat split. eexists [_]. split; [reflexivity|simpl; lia].
  - destruct (slog.Enabled (Handler h0) Background slog.LevelError).
    + unfold bind, liftOut, ret.
      destruct (slog.Handle _ _ _ _) as [res o]. simpl. rewrite Hd.
      repeat split. exists []. rewrite app_nil_r. split; [reflexivity|simpl; lia].
    + simpl. rewrite Hd. repeat split. exists []. rewrite app_nil_r.
      split; [reflexivity|simpl; lia].
Qed.

(** The source step appends at most one attribute, after the record's own. *)
Lemma addSource_appends h stk r :
  exists src, slog.attrs (addSource h stk r) = slog.attrs r ++ src /\
              (List.length src <= 1)%nat.
Proof.
  unfold addSource. destruct (AddSource h).
  - destruct (runtime.Caller _ _) as [[file line]|].
    + eexists [_]. split; [reflexivity|simpl; lia].
    + exists []. rewrite app_nil_r. split; [reflexivity|simpl; lia].
  - exists []. rewrite app_nil_r. split; [reflexivity|simpl; lia].
Qed.

(** On the attribute sequence: when the extractor succeeds on a
    non-background context, the sink receives the record's own
    attributes, then the source attribute if any, then the extractor's
    attributes in the order returned, empty groups left out, and nothing
    is reported. *)
Lemma Handle_extractor_success h stk ctx r wd f attrs e' :
  isBackground ctx = false ->
  AppendAttrFromContext h = Some f ->
  f ctx (ext wd) = (attrs, None, e') ->
  exists src,
    (List.length src <= 1)%nat /\
    slog.attrs (addSource h stk r) = slog.attrs r ++ src /\
    Handle h stk ctx r wd =
      (let '(res, o) :=
         slog.Handle (Handler h) ctx
           (slog.mkRecord (slog.Time r) (slog.Message r) (slog.Level_ r)
              (slog.PC r)
              (slog.attrs r ++ src ++
               filter (fun a => negb (slog.isEmptyGroup (slog.Val a))) attrs))
           (out wd) in
       (res,
        {| ext := e'; out := o; stderr := stderr wd;
           defaultLogger := defaultLogger wd; clock := clock wd |})).
Proof.
  intros Hb Hf Hr.
  destruct (addSource_appends h stk r) as (src & Hs & Hl).
  exists src. split; [exact Hl|]. split; [exact Hs|].
  unfold Handle. rewrite Hb, Hf. unfold bind, liftExt. rewrite Hr.
  unfold ret, liftOut, slog.AddAttrs. cbn [out set_ext].
  destruct (addSource_builtins h stk r) as (T & Ms & L & P).
  rewrite T, Ms, L, P, Hs, <- app_assoc.
  destruct (slog.Handle _ _ _ _) as [res o]. reflexivity.
Qed.

(** X2.  On a non-background context a configured extractor is run
    exactly once per call, whether it succeeds or fails and whatever the
    default logger is: the state it leaves is the state the call leaves,
    so reporting a failure never runs an extractor again. *)
Theorem extractor_runs_once h stk ctx r wd f :
  isBackground ctx = false ->
  AppendAttrFromContext h = Some f ->
  ext (snd (Handle h stk ctx r wd)) = snd (f ctx (ext wd)).
Proof.
  intros Hb Hf. unfold Handle. rewrite Hb, Hf. unfold bind, liftExt.
  destruct (f ctx (ext wd)) as [[attrs [err|]] e']; cbn [snd].
  - destruct (slog_Error "failed to append attributes from context"
                [slog.String "error" err] (set_ext wd e')) as [[] wd1] eqn:He.
    pose proof (slog_Error_frame "failed to append attributes from context"
                  [slog.String "error" err] (set_ext wd e')) as (Fe & _).
    rewrite He in Fe. cbn [snd] in Fe. unfold ret, liftOut.
    destruct (slog.Handle _ _ _ _) as [res o]. simpl. exact Fe.
  - unfold ret, liftOut. destruct (slog.Handle _ _ _ _) as [res o]. reflexivity.
Qed.


(** A [CallerSkip] of zero cannot be selected: it behaves exactly as a
    [CallerSkip] of three. *)
Lemma CallerSkip_zero_is_three (s : H) (a : bool) (k : string)
  (f : option (Extractor E)) stk ctx r wd :
  Handle (mkContextHandler s a k 0 f) stk ctx r wd =
  Handle (mkContextHandler s a k 3 f) stk ctx r wd.
Proof. reflexivity. Qed.

End DecoratorMore.

Section BuiltinMore.

Context {E : Type}.

Implicit Types (h : ContextHandler E slog.commonHandler)
  (wd : World E slog.Output slog.commonHandler)
  (o : ContextHandlerOptions.t E) (os_Stdout : slog.Writer)
  (stk : runtime.Stack) (ctx : Context) (r : slog.Record).

(** A chain of derivations opens its groups after those already open. *)
Lemma deriveSink_groups ds : forall s : slog.commonHandler,
  slog.groups (deriveSink ds s) = slog.groups s ++ groupNames ds.
Proof.
  induction ds as [|d ds IH]; intros s.
  - simpl. now rewrite app_nil_r.
  - unfold deriveSink in *. simpl. rewrite IH.
    destruct d; simpl; [reflexivity|now rewrite <- app_assoc].
Qed.

(** The source step in terms of the options the handler was built from. *)
Lemma attrs_enriched_options pid os_Stdout o ds stk ctx r wd :
  let h := derive ds (NewContextHandler pid os_Stdout o) in
  slog.attrs (slog.AddAttrs (addSource h stk r) (contextAttrs h ctx (ext wd))) =
  slog.attrs r ++ sourceAttr o stk ++
  filter (fun a => negb (slog.isEmptyGroup (slog.Val a)))
    (contextAttrs h ctx (ext wd)).
Proof.
  intros h. rewrite attrs_enriched.
  destruct (derive_configuration ds (NewContextHandler pid os_Stdout o))
    as (_ & D2 & D3 & D4 & _).
  destruct (NewContextHandler_configuration pid os_Stdout o) as (C1 & C2 & C3 & _).
  fold h in D2, D3, D4. rewrite D2, D3, D4, C1, C2, C3.
  unfold sourceAttr, Sprintf_s_d. reflexivity.
Qed.

(** The built-in handlers format two attribute lists given in turn as
    they format their concatenation. *)
Lemma withAttrs_app (s : slog.commonHandler) (a b : list slog.Attr) :
  slog.WithAttrs (slog.WithAttrs s a) b = slog.WithAttrs s (a ++ b).
Proof.
  simpl. unfold slog.withAttrs. simpl.
  now rewrite appendAttrs_app, app_assoc.
Qed.

(** X7.  An event below the configured minimum, logged through a logger
    over a constructed or derived handler, leaves everything as it was:
    no line, no call of the extractor, no report. *)
Theorem Logger_below_minimum pid os_Stdout o ds stk ctx level msg args wd :
  level < ContextHandlerOptions.Level o ->
  Logger_log (derive ds (NewContextHandler pid os_Stdout o)) stk ctx level msg args wd =
  (tt, wd).
Proof.
  intros Hl. unfold Logger_log. rewrite Enabled_minimum.
  destruct (Z.leb_spec (ContextHandlerOptions.Level o) level); [lia|reflexivity].
Qed.

End BuiltinMore.

Section Composition.

Context {E O H : Type} {sink : slog.Handler O H}.

(** X6.  Over a sink for which deriving with two attribute lists in turn
    is deriving with their concatenation, the same holds of the
    decorator: the result is one and the same handler. *)
Theorem WithAttrs_compose (h : ContextHandler E H) (a b : list slog.Attr) :
  slog.WithAttrs (slog.WithAttrs (Handler h) a) b =
    slog.WithAttrs (Handler h) (a ++ b) ->
  WithAttrs (WithAttrs h a) b = WithAttrs h (a ++ b).
Proof.
  intros Hs. unfold WithAttrs. cbn [Handler AddSource SourceKey CallerSkip
                                     AppendAttrFromContext].
  now rewrite Hs.
Qed.

End Composition.

(** ** Instances of the further properties *)

(** X2, instance: the failing extractor with the handler installed as
    default logger; one call is counted. *)
Lemma extractor_runs_once_witness :
  isBackground Ex.request = false /\
  AppendAttrFromContext (Ex.handler Ex.failing) = Some Ex.failing /\
  ext (snd (Handle (Ex.handler Ex.failing) Ex.stack Ex.request Ex.record
              (Ex.installed Ex.failing))) = 1%nat.
Proof.
  split; [reflexivity|]. split; [reflexivity|].
  exact (extractor_runs_once (Ex.handler Ex.failing) Ex.stack Ex.request
           Ex.record (Ex.installed Ex.failing) Ex.failing eq_refl eq_refl).
Defined.


(** X6, instance: the built-in handlers compose attribute lists. *)
Lemma WithAttrs_compose_witness :
  slog.WithAttrs
    (slog.WithAttrs (Handler (Ex.handler Ex.succeeding))
       [slog.String "static" "x"]) [slog.Int "n" 1] =
  slog.WithAttrs (Handler (Ex.handler Ex.succeeding))
    ([slog.String "static" "x"] ++ [slog.Int "n" 1]) /\
  WithAttrs (WithAttrs (Ex.handler Ex.succeeding) [slog.String "static" "x"])
    [slog.Int "n" 1] =
  WithAttrs (Ex.handler Ex.succeeding)
    ([slog.String "static" "x"] ++ [slog.Int "n" 1]).
Proof.
  split; [reflexivity|].
  exact (WithAttrs_compose (Ex.handler Ex.succeeding)
           [slog.String "static" "x"] [slog.Int "n" 1] eq_refl).
Defined.

(** X7, instance: an info event on a handler configured for warnings. *)
Lemma Logger_below_minimum_witness :
  slog.LevelInfo < ContextHandlerOptions.Level (Ex2.plain Ex.succeeding) /\
  Logger_log
    (derive [ByGroup "g"] (NewContextHandler Ex.pid Ex.stdout (Ex2.plain Ex.succeeding)))
    Ex.stack Ex.request slog.LevelInfo "info message" [] Ex.fresh =
  (tt, Ex.fresh).
Proof.
  split; [reflexivity|].
  exact (Logger_below_minimum Ex.pid Ex.stdout (Ex2.plain Ex.succeeding) [ByGroup "g"]
           Ex.stack Ex.request slog.LevelInfo "info message" [] Ex.fresh
           eq_refl).
Defined.

(** * Records appended to in place *)

Lemma nth_setNth_same {A : Type} (i : nat) (x d : A) (l : list A) :
  (i < List.length l)%nat -> nth i (inplace.setNth i x l) d = x.
Proof.
  revert i. induction l as [|a l IH]; intros [|i] Hi; simpl in *;
    try lia; [reflexivity|]. apply IH. lia.
Qed.

Lemma nth_setNth_other {A : Type} (i j : nat) (x d : A) (l : list A) :
  i <> j -> nth j (inplace.setNth i x l) d = nth j l d.
Proof.
  revert i j. induction l as [|a l IH]; intros [|i] [|j] Hij; simpl;
    try reflexivity; try congruence. apply IH. congruence.
Qed.

Lemma length_setNth {A : Type} (i : nat) (x : A) (l : list A) :
  List.length (inplace.setNth i x l) = List.length l.
Proof.
  revert i. induction l as [|a l IH]; intros [|i]; simpl; auto.
Qed.

Lemma firstn_setNth {A : Type} (i : nat) (x : A) (l : list A) :
  (i < List.length l)%nat ->
  firstn (S i) (inplace.setNth i x l) = firstn i l ++ [x].
Proof.
  revert i. induction l as [|a l IH]; intros [|i] Hi; simpl in *;
    try lia; [reflexivity|]. f_equal. apply IH. lia.
Qed.

Lemma present_app (l1 l2 : list inplace.slot) :
  inplace.present (l1 ++ l2) = inplace.present l1 ++ inplace.present l2.
Proof. unfold inplace.present. apply flat_map_app. Qed.

Lemma present_Some (l : list slog.Attr) : inplace.present (map Some l) = l.
Proof. induction l as [|a l IH]; simpl; [reflexivity|now rewrite IH]. Qed.

(** The array of a slice over a freshly allocated array. *)
Lemma array_alloc (hp : inplace.Heap) (l : list inplace.slot) (n c : nat) :
  inplace.array
    {| inplace.arrays := inplace.arrays hp ++ [l];
       inplace.growth := inplace.growth hp |}
    {| inplace.arr := List.length (inplace.arrays hp);
       inplace.len := n; inplace.cap := c |} = l.
Proof.
  unfold inplace.array. cbn [inplace.arr inplace.arrays].
  rewrite app_nth2 by lia. now rewrite Nat.sub_diag.
Qed.

(** [append] keeps a slice within its array and adds the element. *)
Lemma append_Within (s : inplace.Slice) (a : slog.Attr) (hp : inplace.Heap) :
  inplace.Within hp s ->
  inplace.Within (snd (inplace.append s a hp)) (fst (inplace.append s a hp)) /\
  inplace.elems (snd (inplace.append s a hp)) (fst (inplace.append s a hp)) =
    inplace.elems hp s ++ [Some a].
Proof.
  intros (Hlc & Hcl & Hsp). unfold inplace.append.
  destruct (Nat.ltb_spec (inplace.len s) (inplace.cap s)) as [Hlt|Hge].
  - (* in place *)
    assert (Hid : (inplace.arr s < List.length (inplace.arrays hp))%nat).
    { destruct (Nat.lt_ge_cases (inplace.arr s) (List.length (inplace.arrays hp)))
        as [|Hge]; [assumption|].
      unfold inplace.array in Hcl. rewrite nth_overflow in Hcl by assumption.
      simpl in Hcl. lia. }
    assert (Ha : inplace.array
                   (inplace.store hp (inplace.arr s) (inplace.len s) (Some a))
                   {| inplace.arr := inplace.arr s;
                      inplace.len := S (inplace.len s);
                      inplace.cap := inplace.cap s |} =
                 inplace.setNth (inplace.len s) (Some a) (inplace.array hp s)).
    { unfold inplace.array, inplace.store. simpl.
      now rewrite nth_setNth_same. }
    cbn [fst snd]. unfold inplace.Within, inplace.elems, inplace.at_.
    rewrite Ha. cbn [inplace.len inplace.cap].
    rewrite length_setNth. repeat split; try lia.
    + intros i Hi. rewrite nth_setNth_other by lia.
      apply Hsp. lia.
    + apply firstn_setNth. lia.
  - (* reallocation *)
    unfold inplace.alloc. cbn [fst snd].
    unfold inplace.Within, inplace.at_, inplace.elems in *.
    rewrite !array_alloc. cbn [inplace.len inplace.cap].
    assert (He : List.length (firstn (inplace.len s) (inplace.array hp s)) =
                 inplace.len s) by (apply firstn_length_le; lia).
    assert (He1 : List.length
                    (firstn (inplace.len s) (inplace.array hp s) ++ [Some a]) =
                  S (inplace.len s)) by (rewrite length_app, He; simpl; lia).
    assert (Hc : (S (inplace.len s) <=
                  inplace.newcap hp (inplace.cap s) (S (inplace.len s)))%nat)
      by (unfold inplace.newcap; lia).
    repeat split.
    + exact Hc.
    + rewrite length_app, repeat_length, He1. lia.
    + intros i Hi. rewrite app_nth2 by lia. apply nth_repeat.
    + rewrite firstn_app, He1, Nat.sub_diag, firstn_O, app_nil_r.
      apply firstn_all2. lia.
Qed.

(** [slices.Grow] keeps the elements and makes the room asked for. *)
Lemma Grow_Within (s : inplace.Slice) (n : nat) (hp : inplace.Heap) :
  inplace.Within hp s ->
  inplace.Within (snd (inplace.Grow s n hp)) (fst (inplace.Grow s n hp)) /\
  inplace.elems (snd (inplace.Grow s n hp)) (fst (inplace.Grow s n hp)) =
    inplace.elems hp s /\
  inplace.len (fst (inplace.Grow s n hp)) = inplace.len s.
Proof.
  intros (Hlc & Hcl & Hsp). unfold inplace.Grow.
  destruct (Nat.leb_spec n (inplace.cap s - inplace.len s)) as [Hle|Hgt].
  - cbn [fst snd]. repeat split; assumption.
  - unfold inplace.alloc. cbn [fst snd].
    unfold inplace.Within, inplace.at_, inplace.elems in *.
    rewrite !array_alloc. cbn [inplace.len inplace.cap].
    assert (He : List.length (firstn (inplace.cap s) (inplace.array hp s)) =
                 inplace.cap s) by (apply firstn_length_le; lia).
    assert (Hc : (inplace.len s + n <=
                  inplace.newcap hp (inplace.cap s) (inplace.len s + n))%nat)
      by (unfold inplace.newcap; lia).
    repeat split.
    + lia.
    + rewrite length_app, repeat_length, He. lia.
    + intros i Hi.
      destruct (Nat.lt_ge_cases i (inplace.cap s)) as [Hi1|Hi1].
      * rewrite app_nth1 by lia. rewrite nth_firstn.
        destruct (Nat.ltb_spec i (inplace.cap s)); [|lia]. apply Hsp. lia.
      * rewrite app_nth2 by lia. apply nth_repeat.
    + rewrite firstn_app, He.
      replace (inplace.len s - inplace.cap s)%nat with 0%nat by lia.
      rewrite firstn_O, app_nil_r, firstn_firstn.
      now rewrite Nat.min_l by lia.
Qed.

(** The last loop of [AddAttrs] adds the attributes that are not empty
    groups, in order. *)
Lemma appendAll_Within (l : list slog.Attr) :
  forall (s : inplace.Slice) (hp : inplace.Heap),
  inplace.Within hp s ->
  inplace.Within (snd (inplace.appendAll s l hp)) (fst (inplace.appendAll s l hp)) /\
  inplace.elems (snd (inplace.appendAll s l hp)) (fst (inplace.appendAll s l hp)) =
    inplace.elems hp s ++
    map Some (filter (fun a => negb (slog.isEmptyGroup (slog.Val a))) l).
Proof.
  induction l as [|a l IH]; intros s hp Hw.
  - cbn [inplace.appendAll ret fst snd filter map]. now rewrite app_nil_r.
  - cbn [inplace.appendAll filter].
    destruct (slog.isEmptyGroup (slog.Val a)); cbn [negb].
    + apply IH, Hw.
    + unfold bind.
      destruct (append_Within s a hp Hw) as (Hw1 & He1).
      destruct (inplace.append s a hp) as [s1 hp1]. cbn [fst snd] in *.
      destruct (IH s1 hp1 Hw1) as (Hw2 & He2).
      split; [exact Hw2|]. rewrite He2, He1, <- app_assoc. reflexivity.
Qed.

(** The first loop of [AddAttrs]. *)
Lemma fillFront_spec (attrs : list slog.Attr) : forall fr : list slog.Attr,
  fst (inplace.fillFront fr attrs) ++
    filter (fun a => negb (slog.isEmptyGroup (slog.Val a)))
      (snd (inplace.fillFront fr attrs)) =
  fr ++ filter (fun a => negb (slog.isEmptyGroup (slog.Val a))) attrs /\
  (List.length fr <= List.length (fst (inplace.fillFront fr attrs)))%nat /\
  ((List.length (fst (inplace.fillFront fr attrs)) < inplace.nAttrsInline)%nat ->
   snd (inplace.fillFront fr attrs) = []) /\
  ((inplace.nAttrsInline <= List.length fr)%nat ->
   inplace.fillFront fr attrs = (fr, attrs)).
Proof.
  induction attrs as [|a attrs IH]; intros fr.
  - cbn. rewrite app_nil_r. repeat split; auto.
  - cbn [inplace.fillFront].
    destruct (Nat.ltb_spec (List.length fr) inplace.nAttrsInline) as [Hlt|Hge].
    + cbn [filter].
      destruct (slog.isEmptyGroup (slog.Val a)); cbn [negb].
      * destruct (IH fr) as (I1 & I2 & I3 & _). repeat split; auto. lia.
      * destruct (IH (fr ++ [a])) as (I1 & I2 & I3 & _).
        rewrite length_app in I2. simpl in I2.
        repeat split; auto; try lia.
        rewrite I1, <- app_assoc. reflexivity.
    + cbn [fst snd]. repeat split; auto. lia.
Qed.

Lemma unshared_Unshared (hp : inplace.Heap) (r : inplace.Record) :
  inplace.unshared hp r = true -> inplace.Unshared hp r.
Proof.
  unfold inplace.unshared, inplace.Unshared, inplace.Within.
  rewrite !andb_true_iff. intros (((H1 & H2) & H3) & H4).
  apply Nat.leb_le in H1. apply Nat.leb_le in H2.
  repeat split; auto.
  - intros i Hi. unfold inplace.at_.
    rewrite forallb_forall in H4.
    destruct (nth i (inplace.array hp (inplace.back r)) None) as [a|] eqn:Hn;
      [|reflexivity].
    exfalso.
    assert (Hk : nth (i - inplace.len (inplace.back r))
                   (skipn (inplace.len (inplace.back r))
                      (firstn (inplace.cap (inplace.back r))
                         (inplace.array hp (inplace.back r)))) None = Some a).
    { rewrite nth_skipn, nth_firstn.
      replace (inplace.len (inplace.back r) +
               (i - inplace.len (inplace.back r)))%nat with i by lia.
      destruct (Nat.ltb_spec i (inplace.cap (inplace.back r))); [exact Hn|lia]. }
    assert (Hin : In (Some a)
                    (skipn (inplace.len (inplace.back r))
                       (firstn (inplace.cap (inplace.back r))
                          (inplace.array hp (inplace.back r))))).
    { rewrite <- Hk. apply nth_In.
      rewrite length_skipn, firstn_length_le by lia. lia. }
    specialize (H4 _ Hin). discriminate.
  - intros Hf. destruct (Nat.ltb_spec (List.length (inplace.front r))
                           inplace.nAttrsInline); [|lia].
    now apply Nat.eqb_eq in H3.
Qed.

Lemma len_appendAll (l : list slog.Attr) :
  forall (s : inplace.Slice) (hp : inplace.Heap),
  inplace.len (fst (inplace.appendAll s l hp)) =
  (inplace.len s +
   List.length (filter (fun a => negb (slog.isEmptyGroup (slog.Val a))) l))%nat.
Proof.
  induction l as [|a l IH]; intros s hp; cbn [inplace.appendAll filter].
  - cbn. lia.
  - destruct (slog.isEmptyGroup (slog.Val a)); cbn [negb]; [apply IH|].
    unfold bind. unfold inplace.append at 1.
    destruct (inplace.len s <? inplace.cap s)%nat;
      [|unfold inplace.alloc]; rewrite IH; cbn; lia.
Qed.

(** On a record nobody else has appended to, the in-place [AddAttrs]
    reads back as the plain append, and the record stays unshared. *)
Lemma AddAttrs_Unshared (r : inplace.Record) (attrs : list slog.Attr)
  (hp : inplace.Heap) :
  inplace.Unshared hp r ->
  exists r' hp',
    inplace.AddAttrs r attrs hp = (r', hp') /\
    inplace.read hp' r' = slog.AddAttrs (inplace.read hp r) attrs /\
    inplace.Unshared hp' r'.
Proof.
  intros (Hw & Hfr).
  destruct (inplace.AddAttrs r attrs hp) as [r' hp'] eqn:Heq.
  exists r', hp'. split; [reflexivity|].
  unfold inplace.AddAttrs in Heq.
  destruct (fillFront_spec attrs (inplace.front r)) as (F1 & F2 & F3 & F4).
  destruct (inplace.fillFront (inplace.front r) attrs) as [fr rest].
  cbn [fst snd] in F1, F2, F3, F4.
  (* the slot past the end is zero: no reallocation, no extra attribute *)
  unfold bind at 1 in Heq.
  assert (Hz : (inplace.len (inplace.back r) < inplace.cap (inplace.back r))%nat ->
               inplace.at_ hp (inplace.back r) (inplace.len (inplace.back r)) = None).
  { intros Hlt. destruct Hw as (_ & _ & Hsp). apply Hsp. lia. }
  destruct (Nat.ltb_spec (inplace.len (inplace.back r)) (inplace.cap (inplace.back r)))
    as [Hlt|Hge]; [cbv beta in Heq; rewrite (Hz Hlt) in Heq|unfold ret at 1 in Heq];
    clear Hz.
  all: unfold bind at 1 in Heq.
  all: destruct (Grow_Within (inplace.back r)
                   (List.length rest - inplace.countEmptyGroups rest) hp Hw)
         as (Hw1 & He1 & Hl1).
  all: destruct (inplace.Grow _ _ hp) as [b1 hp1]; cbn [fst snd] in Hw1, He1, Hl1.
  all: unfold bind, ret in Heq.
  all: destruct (appendAll_Within rest b1 hp1 Hw1) as (Hw2 & He2).
  all: pose proof (len_appendAll rest b1 hp1) as Hl2.
  all: destruct (inplace.appendAll b1 rest hp1) as [b2 hp2]; cbn [fst snd] in *.
  all: injection Heq as <- <-.
  all: split;
    [ unfold inplace.read, slog.AddAttrs, inplace.Attrs;
      cbn [inplace.Time inplace.Message inplace.Level inplace.PC inplace.front
           inplace.back slog.Time slog.Message slog.Level_ slog.PC slog.attrs];
      f_equal; rewrite He2, He1, present_app, present_Some;
      destruct (Nat.lt_ge_cases (List.length (inplace.front r)) inplace.nAttrsInline)
        as [Hl|Hg];
      [ assert (Hn : inplace.elems hp (inplace.back r) = [])
          by (unfold inplace.elems; rewrite (Hfr Hl); reflexivity);
        rewrite Hn; cbn [inplace.present flat_map app]; rewrite app_nil_r; exact F1
      | specialize (F4 Hg); injection F4 as -> ->; now rewrite <- app_assoc ]
    | split; [exact Hw2|];
      cbn [inplace.front inplace.back]; intros Hl;
      rewrite Hl2, Hl1, (F3 Hl); cbn [filter List.length];
      rewrite Hfr by lia; reflexivity ].
Qed.

Section InPlace.

Context {E O H : Type} {sink : slog.Handler O H}.

Implicit Types (h : ContextHandler E H) (wd : World E O H)
  (hp : inplace.Heap) (stk : runtime.Stack) (ctx : Context)
  (r : inplace.Record).

(** Delegation reads the record and leaves the arrays alone. *)
Lemma delegate_read h ctx r wd hp :
  inplace.delegate h ctx r (wd, hp) =
  (let '(res, wd') :=
     liftOut (slog.Handle (Handler h) ctx (inplace.read hp r)) wd in
   (res, (wd', hp))).
Proof.
  unfold inplace.delegate, inplace.liftWorld. cbn [fst snd].
  destruct (liftOut _ wd) as [res wd']. reflexivity.
Qed.

(** For a record nobody else has appended to, [Handle] with its appends
    done in place is [Handle] on the attribute sequence the record reads
    as: same result, same world; only the arrays may have changed. *)
Lemma Handle_agrees_Unshared h stk ctx r wd hp :
  inplace.Unshared hp r ->
  exists hp',
    inplace.Handle h stk ctx r (wd, hp) =
    (let '(res, wd') := Handle h stk ctx (inplace.read hp r) wd in
     (res, (wd', hp'))).
Proof.
  intros Hu. unfold inplace.Handle, Handle.
  (* the source step *)
  assert (Hsrc : exists r1 hp1,
            (if AddSource h
             then
               match
                 runtime.Caller stk (if CallerSkip h =? 0 then 3 else CallerSkip h)
               with
               | Some (file, line) =>
                   inplace.liftHeap
                     (inplace.AddAttrs r
                        [slog.String
                           (if negb (String.eqb (SourceKey h) "")
                            then SourceKey h else "source")
                           (Sprintf_s_d file line)])
               | None => ret r
               end
             else ret r) (wd, hp) = (r1, (wd, hp1)) /\
            inplace.read hp1 r1 = addSource h stk (inplace.read hp r) /\
            inplace.Unshared hp1 r1).
  { unfold addSource. destruct (AddSource h); [|exists r, hp; auto].
    destruct (runtime.Caller stk _) as [[file line]|]; [|exists r, hp; auto].
    destruct (AddAttrs_Unshared r
                [slog.String
                   (if negb (String.eqb (SourceKey h) "")
                    then SourceKey h else "source")
                   (Sprintf_s_d file line)] hp Hu)
      as (r1 & hp1 & Ha & Hr & Hu1).
    exists r1, hp1. unfold inplace.liftHeap. cbn [fst snd]. rewrite Ha. auto. }
  destruct Hsrc as (r1 & hp1 & Hs & Hr1 & Hu1).
  unfold bind at 1. cbv zeta. rewrite Hs. rewrite <- Hr1.
  destruct (isBackground ctx).
  - exists hp1. apply delegate_read.
  - destruct (AppendAttrFromContext h) as [f|].
    + unfold bind at 1 2 4 5. unfold inplace.liftWorld at 1, liftExt.
      cbn [fst snd].
      destruct (f ctx (ext wd)) as [[attrs [err|]] e'].
      * exists hp1. unfold bind, ret, inplace.liftWorld. cbn [fst snd].
        destruct (slog_Error _ _ _) as [[] wd1].
        apply delegate_read.
      * destruct (AddAttrs_Unshared r1 attrs hp1 Hu1)
          as (r2 & hp2 & Ha & Hr & Hu2).
        exists hp2. unfold inplace.liftHeap, ret. cbn [fst snd].
        rewrite Ha, <- Hr. apply delegate_read.
    + exists hp1. unfold bind, ret. apply delegate_read.
Qed.

End InPlace.

(** ** Handlers derived with attributes and then a group *)

Section DerivedGroup.

Context {E : Type}.

Implicit Types (h : ContextHandler E slog.commonHandler)
  (wd : World E slog.Output slog.commonHandler)
  (o : ContextHandlerOptions.t E) (os_Stdout : slog.Writer)
  (stk : runtime.Stack) (ctx : Context) (r : slog.Record).

(** The line of a handler derived with [static=x] and then the group [g]
    from a handler with any groups open. *)
Lemma derived_line_open h0 (r' : slog.Record) (appended : list slog.Attr) :
  slog.attrs r' = [slog.String "k" "v"] ++ appended ->
  slog.line_attrs
    (slog.format
       (Handler (WithGroup (WithAttrs h0 [slog.String "static" "x"]) "g")) r') =
  slog.preformattedAttrs (Handler h0) ++
  [(slog.groups (Handler h0), "static", slog.StringValue "x");
   (slog.groups (Handler h0) ++ ["g"], "k", slog.StringValue "v")] ++
  slog.appendAttrs (slog.groups (Handler h0) ++ ["g"]) appended.
Proof.
  intros Hr. simpl. rewrite Hr. simpl.
  now rewrite <- app_assoc.
Qed.

(** C8, as amended.  Take any handler, constructed or derived through a
    chain of [WithAttrs] and [WithGroup]; derive it with [static=x] and
    then with the group [g].  The line written for a record carrying
    [k=v] lists what the handler had baked, then [static] at the level of
    the groups the handler had open (outside every group for a handler
    with none), then [k] under [g], itself below those groups, then under
    [g] whatever [Handle] appended.  The process identifier, when enabled,
    is there outside every group; the source attribute, when enabled and
    when the call site resolves, is there under [g]. *)
Theorem derived_group_nesting pid os_Stdout o ds stk ctx r wd :
  slog.attrs r = [slog.String "k" "v"] ->
  let h0 := derive ds (NewContextHandler pid os_Stdout o) in
  let h := WithGroup (WithAttrs h0 [slog.String "static" "x"]) "g" in
  let open := groupNames ds in
  let pidKey :=
    if String.eqb (ContextHandlerOptions.PIDKey o) ""
    then "pid" else ContextHandlerOptions.PIDKey o in
  let sourceKey :=
    if String.eqb (ContextHandlerOptions.SourceKey o) ""
    then "source" else ContextHandlerOptions.SourceKey o in
  let skip :=
    if ContextHandlerOptions.CallerSkip o =? 0
    then 3 else ContextHandlerOptions.CallerSkip o in
  exists diag line appended,
    out (snd (Handle h stk ctx r wd)) =
      out wd ++ diag ++ [(slog.fd (slog.w (Handler h)), line)] /\
    slog.line_attrs line =
      slog.preformattedAttrs (Handler h0) ++
      [(open, "static", slog.StringValue "x");
       (open ++ ["g"], "k", slog.StringValue "v")] ++
      slog.appendAttrs (open ++ ["g"]) appended /\
    In (open ++ ["g"], "k", slog.StringValue "v") (slog.line_attrs line) /\
    In (open, "static", slog.StringValue "x") (slog.line_attrs line) /\
    (ContextHandlerOptions.WithPID o = true ->
     In ([], pidKey, slog.Int64Value pid) (slog.line_attrs line)) /\
    (ContextHandlerOptions.AddSource o = true ->
     forall file line_no,
       runtime.Caller stk skip = Some (file, line_no) ->
       In (open ++ ["g"], sourceKey,
           slog.StringValue
             (file ++ ":" ++ NilZero.string_of_int (Z.to_int line_no))%string)
          (slog.line_attrs line)).
Proof.
  intros Hr h0 h open pidKey sourceKey skip.
  destruct (Handle_builtin h stk ctx r wd) as (diag & wd' & Hh & Ho & _).
  destruct (NewContextHandler_sink pid os_Stdout o) as (_ & _ & _ & G & Q).
  fold pidKey in Q.
  destruct (NewContextHandler_configuration pid os_Stdout o) as (C1 & C2 & C3 & _).
  destruct (derive_configuration ds (NewContextHandler pid os_Stdout o))
    as (D & D1 & D2 & D3 & _).
  fold h0 in D, D1, D2, D3.
  pose proof (deriveSink_groups ds (Handler (NewContextHandler pid os_Stdout o))) as G'.
  destruct (deriveSink_builtin ds (Handler (NewContextHandler pid os_Stdout o)))
    as (_ & _ & _ & more & P).
  rewrite <- D in G', P. rewrite G in G'. cbn [app] in G'. fold open in G'.
  rewrite Q in P.
  pose proof (attrs_enriched h stk ctx r wd) as Ha.
  change (AddSource h) with (AddSource h0) in Ha.
  change (SourceKey h) with (SourceKey h0) in Ha.
  change (CallerSkip h) with (CallerSkip h0) in Ha.
  rewrite D1, D2, D3, C1, C2, C3, Hr in Ha. fold sourceKey skip in Ha.
  pose proof (derived_line_open h0 _ _ Ha) as Hl. fold h in Hl.
  rewrite G' in Hl.
  rewrite Hh. cbn [snd].
  exists diag. eexists. eexists.
  split; [exact Ho|]. split; [exact Hl|].
  rewrite Hl.
  split; [apply in_or_app; right; apply in_or_app; left; simpl; auto|].
  split; [apply in_or_app; right; apply in_or_app; left; simpl; auto|].
  split.
  - intros Hp. apply in_or_app. left. rewrite P, Hp.
    apply in_or_app. left. apply in_or_app. left. left. reflexivity.
  - intros Hs file line_no Hc.
    apply in_or_app. right. apply in_or_app. right.
    rewrite appendAttrs_app. apply in_or_app. left.
    rewrite Hs, Hc. left. reflexivity.
Qed.

End DerivedGroup.

(** C8, instance of the amended statement: the usage example's handler
    with the group [a] already open, called from main.go:42. *)
Lemma derived_group_nesting_witness :
  slog.attrs Ex.record = [slog.String "k" "v"] /\
  exists diag line appended,
    out (snd (Handle
                (WithGroup
                   (WithAttrs (derive [ByGroup "a"] (Ex.handler Ex.succeeding))
                      [slog.String "static" "x"]) "g")
                Ex.stack Ex.request Ex.record Ex.fresh)) =
      out Ex.fresh ++ diag ++ [("buf", line)] /\
    slog.line_attrs line =
      [([], "pid", slog.Int64Value 4242)] ++
      [(["a"], "static", slog.StringValue "x");
       (["a"; "g"], "k", slog.StringValue "v")] ++
      slog.appendAttrs ["a"; "g"] appended /\
    In (["a"; "g"], "k", slog.StringValue "v") (slog.line_attrs line) /\
    In (["a"], "static", slog.StringValue "x") (slog.line_attrs line) /\
    (ContextHandlerOptions.WithPID (Ex.options Ex.succeeding) = true ->
     In ([], "pid", slog.Int64Value 4242) (slog.line_attrs line)) /\
    (ContextHandlerOptions.AddSource (Ex.options Ex.succeeding) = true ->
     forall file line_no,
       Ex.stack 3 = Some (file, line_no) ->
       In (["a"; "g"], "source",
           slog.StringValue
             (file ++ ":" ++ NilZero.string_of_int (Z.to_int line_no))%string)
          (slog.line_attrs line)).
Proof.
  split; [reflexivity|].
  exact (derived_group_nesting Ex.pid Ex.stdout (Ex.options Ex.succeeding)
           [ByGroup "a"] Ex.stack Ex.request Ex.record Ex.fresh eq_refl).
Defined.

(** ** Records appended to in place: what [Handle] does *)

Section InPlaceHandle.

Context {E O H : Type} {sink : slog.Handler O H}.

Implicit Types (h : ContextHandler E H) (wd : World E O H)
  (hp : inplace.Heap) (stk : runtime.Stack) (ctx : Context)
  (r : inplace.Record).

(** The attributes after the source step, spelled out. *)
Lemma attrs_addSource_any h stk (r0 : slog.Record) :
  slog.attrs (addSource h stk r0) =
  slog.attrs r0 ++
  (if AddSource h then
     match runtime.Caller stk (if CallerSkip h =? 0 then 3 else CallerSkip h) with
     | Some (file, line) =>
         [slog.mkAttr
            (if String.eqb (SourceKey h) "" then "source" else SourceKey h)
            (slog.StringValue
               (file ++ ":" ++ NilZero.string_of_int (Z.to_int line))%string)]
     | None => []
     end
   else []).
Proof.
  unfold addSource.
  destruct (AddSource h); [|now rewrite app_nil_r].
  destruct (runtime.Caller _ _) as [[file line]|]; [|now rewrite app_nil_r].
  destruct (String.eqb (SourceKey h) ""); reflexivity.
Qed.

(** The record the sink is handed, spelled out. *)
Lemma enriched_record h stk (r0 : slog.Record) (ca : list slog.Attr) :
  slog.AddAttrs (addSource h stk r0) ca =
  slog.mkRecord (slog.Time r0) (slog.Message r0) (slog.Level_ r0) (slog.PC r0)
    (slog.attrs r0 ++
     (if AddSource h then
        match runtime.Caller stk (if CallerSkip h =? 0 then 3 else CallerSkip h) with
        | Some (file, line) =>
            [slog.mkAttr
               (if String.eqb (SourceKey h) "" then "source" else SourceKey h)
               (slog.StringValue
                  (file ++ ":" ++ NilZero.string_of_int (Z.to_int line))%string)]
        | None => []
        end
      else []) ++
     filter (fun a => negb (slog.isEmptyGroup (slog.Val a))) ca).
Proof.
  unfold slog.AddAttrs.
  destruct (addSource_builtins h stk r0) as (T & Ms & L & P).
  now rewrite T, Ms, L, P, attrs_addSource_any, <- app_assoc.
Qed.

(** X8.  For a record nobody else has appended to, [Handle] with its
    appends done in place, as the program runs them, agrees with [Handle]
    on the attribute sequence the record reads as: same result, same
    world; only the arrays behind the record may have changed. *)
Theorem in_place_Handle_agrees h stk ctx r wd hp :
  inplace.unshared hp r = true ->
  exists hp',
    inplace.Handle h stk ctx r (wd, hp) =
    (let '(res, wd') := Handle h stk ctx (inplace.read hp r) wd in
     (res, (wd', hp'))).
Proof.
  intros Hu. apply Handle_agrees_Unshared, unshared_Unshared, Hu.
Qed.

(** X9.  With add-source enabled and a record nobody else has appended
    to, the wrapped sink is handed the record's own attributes, then, when
    the frame [CallerSkip] levels up (three when zero) resolves, exactly
    one attribute keyed [SourceKey] or ["source"] whose value is the file,
    a colon and the line in decimal, then what the context contributes;
    when the frame does not resolve, no source attribute.  The result is
    the sink's. *)
Theorem source_attribute_reaches_sink h stk ctx r wd hp :
  inplace.unshared hp r = true ->
  AddSource h = true ->
  let skip := if CallerSkip h =? 0 then 3 else CallerSkip h in
  let key := if String.eqb (SourceKey h) "" then "source" else SourceKey h in
  let src :=
    match runtime.Caller stk skip with
    | Some (file, line) =>
        [slog.mkAttr key
           (slog.StringValue
              (file ++ ":" ++ NilZero.string_of_int (Z.to_int line))%string)]
    | None => []
    end in
  exists wd1 hp',
    inplace.Handle h stk ctx r (wd, hp) =
    (let '(res, o) :=
       slog.Handle (Handler h) ctx
         (slog.mkRecord (inplace.Time r) (inplace.Message r) (inplace.Level r)
            (inplace.PC r)
            (inplace.Attrs hp r ++ src ++
             filter (fun a => negb (slog.isEmptyGroup (slog.Val a)))
               (contextAttrs h ctx (ext wd))))
         (out wd1) in
     (res, (set_out wd1 o, hp'))) /\
    (isBackground ctx = true -> wd1 = wd).
Proof.
  intros Hu Hs skip key src.
  destruct (Handle_agrees_Unshared h stk ctx r wd hp (unshared_Unshared hp r Hu))
    as (hp' & Ha).
  assert (Hd : exists wd1,
             Handle h stk ctx (inplace.read hp r) wd =
             liftOut (slog.Handle (Handler h) ctx
                        (slog.AddAttrs (addSource h stk (inplace.read hp r))
                           (contextAttrs h ctx (ext wd)))) wd1 /\
             (isBackground ctx = true -> wd1 = wd)).
  { unfold Handle, contextAttrs.
    destruct (isBackground ctx).
    - exists wd. rewrite AddAttrs_nil. auto.
    - destruct (AppendAttrFromContext h) as [f|].
      + unfold bind at 1 2. unfold liftExt.
        destruct (f ctx (ext wd)) as [[attrs [err|]] e'].
        * unfold bind.
          destruct (slog_Error _ _ _) as [[] wd1].
          exists wd1. rewrite AddAttrs_nil. split; [reflexivity|discriminate].
        * exists (set_ext wd e'). split; [reflexivity|discriminate].
      + exists wd. unfold bind, ret. rewrite AddAttrs_nil.
        split; [reflexivity|discriminate]. }
  destruct Hd as (wd1 & Hd & Hbg).
  exists wd1, hp'. split; [|exact Hbg].
  rewrite Ha, Hd, enriched_record, Hs. unfold liftOut.
  cbn [inplace.read slog.Time slog.Message slog.Level_ slog.PC slog.attrs].
  fold skip. fold key. fold src.
  destruct (slog.Handle _ _ _ _) as [res o]. reflexivity.
Qed.

(** X1.  When the extractor succeeds on a non-background context, for a
    record nobody else has appended to, the sink is handed the record's
    own attributes, then the source attribute if any, then the
    extractor's attributes in the order returned, empty groups left out;
    nothing is reported; the extractor's state, the sink's state and the
    arrays behind the record are all that change. *)
Theorem Handle_extractor_success_in_place h stk ctx r wd hp f attrs e' :
  inplace.unshared hp r = true ->
  isBackground ctx = false ->
  AppendAttrFromContext h = Some f ->
  f ctx (ext wd) = (attrs, None, e') ->
  let src :=
    if AddSource h then
      match runtime.Caller stk (if CallerSkip h =? 0 then 3 else CallerSkip h) with
      | Some (file, line) =>
          [slog.mkAttr
             (if String.eqb (SourceKey h) "" then "source" else SourceKey h)
             (slog.StringValue
                (file ++ ":" ++ NilZero.string_of_int (Z.to_int line))%string)]
      | None => []
      end
    else [] in
  exists hp',
    inplace.Handle h stk ctx r (wd, hp) =
    (let '(res, o) :=
       slog.Handle (Handler h) ctx
         (slog.mkRecord (inplace.Time r) (inplace.Message r) (inplace.Level r)
            (inplace.PC r)
            (inplace.Attrs hp r ++ src ++
             filter (fun a => negb (slog.isEmptyGroup (slog.Val a))) attrs))
         (out wd) in
     (res,
      ({| ext := e'; out := o; stderr := stderr wd;
          defaultLogger := defaultLogger wd; clock := clock wd |}, hp'))).
Proof.
  intros Hu Hb Hf Hr src.
  destruct (Handle_agrees_Unshared h stk ctx r wd hp (unshared_Unshared hp r Hu))
    as (hp' & Ha).
  exists hp'. rewrite Ha.
  unfold Handle. rewrite Hb, Hf. unfold bind, liftExt. rewrite Hr.
  unfold ret, liftOut. cbn [out set_ext].
  rewrite enriched_record.
  cbn [inplace.read slog.Time slog.Message slog.Level_ slog.PC slog.attrs].
  fold src.
  destruct (slog.Handle _ _ _ _) as [res o]. reflexivity.
Qed.

(** X10.  A record whose inline slots are full and whose slot past the
    end of [back] a copy has written: with add-source enabled and the
    frame resolving, [Handle] hands the sink the record's attributes
    followed by two attributes, ["!BUG"] and then the source attribute. *)
Theorem Handle_reused_inserts_bug h stk r wd hp file line :
  inplace.reused hp r = true ->
  AddSource h = true ->
  runtime.Caller stk (if CallerSkip h =? 0 then 3 else CallerSkip h) =
    Some (file, line) ->
  exists hp',
    inplace.Handle h stk Background r (wd, hp) =
    (let '(res, o) :=
       slog.Handle (Handler h) Background
         (slog.mkRecord (inplace.Time r) (inplace.Message r) (inplace.Level r)
            (inplace.PC r)
            (inplace.Attrs hp r ++
             [inplace.bug;
              slog.mkAttr
                (if String.eqb (SourceKey h) "" then "source" else SourceKey h)
                (slog.StringValue
                   (file ++ ":" ++ NilZero.string_of_int (Z.to_int line))%string)]))
         (out wd) in
     (res, (set_out wd o, hp'))).
Proof.
  intros Hre Hs Hc.
  unfold inplace.reused in Hre. rewrite !andb_true_iff in Hre.
  destruct Hre as (((Hfull & Hlt) & Hcl) & Hat).
  apply Nat.leb_le in Hfull. apply Nat.ltb_lt in Hlt. apply Nat.leb_le in Hcl.
  destruct (inplace.at_ hp (inplace.back r) (inplace.len (inplace.back r)))
    as [written|] eqn:Hw; [clear Hat|discriminate].
  set (src := slog.String
                (if negb (String.eqb (SourceKey h) "") then SourceKey h else "source")
                (Sprintf_s_d file line)).
  (* the source step on the written slot *)
  assert (Hadd : exists r1 hp1,
             inplace.AddAttrs r [src] hp = (r1, hp1) /\
             inplace.read hp1 r1 =
               slog.mkRecord (inplace.Time r) (inplace.Message r) (inplace.Level r)
                 (inplace.PC r) (inplace.Attrs hp r ++ [inplace.bug; src])).
  { destruct (inplace.AddAttrs r [src] hp) as [r1 hp1] eqn:Heq.
    exists r1, hp1. split; [reflexivity|].
    unfold inplace.AddAttrs in Heq.
    destruct (fillFront_spec [src] (inplace.front r)) as (_ & _ & _ & F4).
    rewrite (F4 Hfull) in Heq.
    unfold bind at 1 in Heq.
    destruct (Nat.ltb_spec (inplace.len (inplace.back r)) (inplace.cap (inplace.back r)))
      as [_|Hge]; [|lia].
    cbv beta in Heq. rewrite Hw in Heq.
    assert (Hwc : inplace.Within hp (inplace.Clip (inplace.back r))).
    { unfold inplace.Within, inplace.Clip, inplace.array.
      cbn [inplace.len inplace.cap inplace.arr].
      fold (inplace.array hp (inplace.back r)).
      repeat split; lia. }
    destruct (append_Within (inplace.Clip (inplace.back r)) inplace.bug hp Hwc)
      as (Hw0 & He0).
    destruct (inplace.append (inplace.Clip (inplace.back r)) inplace.bug hp)
      as [b0 hp0]. cbn [fst snd] in Hw0, He0.
    unfold bind at 1 in Heq.
    destruct (Grow_Within b0
                (List.length [src] - inplace.countEmptyGroups [src]) hp0 Hw0)
      as (Hw1 & He1 & _).
    destruct (inplace.Grow b0 _ hp0) as [b1 hp1']. cbn [fst snd] in Hw1, He1.
    unfold bind, ret in Heq.
    destruct (appendAll_Within [src] b1 hp1' Hw1) as (_ & He2).
    destruct (inplace.appendAll b1 [src] hp1') as [b2 hp2]. cbn [fst snd] in He2.
    injection Heq as <- <-.
    unfold inplace.read, inplace.Attrs.
    cbn [inplace.Time inplace.Message inplace.Level inplace.PC inplace.front
         inplace.back].
    f_equal. rewrite He2, He1, He0, !present_app.
    cbn [filter map slog.isEmptyGroup slog.Val src slog.String negb
         inplace.present flat_map app inplace.bug].
    unfold inplace.elems, inplace.Clip, inplace.array.
    cbn [inplace.len inplace.arr]. rewrite <- !app_assoc. reflexivity. }
  destruct Hadd as (r1 & hp1 & Hadd & Hread).
  exists hp1. unfold inplace.Handle. rewrite Hs, Hc.
  unfold bind at 1. unfold inplace.liftHeap. cbn [fst snd isBackground].
  fold src. rewrite Hadd. rewrite delegate_read, Hread. unfold liftOut.
  assert (Hk : src =
               slog.mkAttr
                 (if String.eqb (SourceKey h) "" then "source" else SourceKey h)
                 (slog.StringValue
                    (file ++ ":" ++ NilZero.string_of_int (Z.to_int line))%string)).
  { unfold src. destruct (String.eqb (SourceKey h) ""); reflexivity. }
  rewrite Hk.
  destruct (slog.Handle _ _ _ _) as [res o]. reflexivity.
Qed.

End InPlaceHandle.

(** ** Two runs *)

Section TwoRuns.

Context {E : Type}.

Implicit Types (h : ContextHandler E slog.commonHandler)
  (wd : World E slog.Output slog.commonHandler)
  (stk : runtime.Stack) (ctx : Context) (r : slog.Record).

(** The report of [slog.Error] is the same line at any time of day,
    the time stamp apart. *)
Lemma report_withoutTime h stk (t1 t2 : Z) (msg : string)
  (args : list slog.Attr) :
  withoutTime
    (slog.format (Handler h)
       (addSource h stk
          (slog.AddAttrs (slog.NewRecord t1 slog.LevelError msg 0) args))) =
  withoutTime
    (slog.format (Handler h)
       (addSource h stk
          (slog.AddAttrs (slog.NewRecord t2 slog.LevelError msg 0) args))).
Proof.
  unfold addSource.
  destruct (AddSource h); [|reflexivity].
  destruct (runtime.Caller _ _) as [[file line]|]; reflexivity.
Qed.

(** Two calls from equal extractor states under the same default logger:
    the same diagnostics, time stamps apart, on the sink and on standard
    error, and equal extractor states afterwards. *)
Lemma Handle_two_runs h stk1 stk2 ctx r1 r2 wd1 wd2 :
  ext wd1 = ext wd2 ->
  defaultLogger wd1 = defaultLogger wd2 ->
  exists diag1 diag2 e1 e2,
    out (snd (Handle h stk1 ctx r1 wd1)) =
      out wd1 ++ diag1 ++
      [(slog.fd (slog.w (Handler h)),
        slog.format (Handler h)
          (slog.AddAttrs (addSource h stk1 r1) (contextAttrs h ctx (ext wd1))))] /\
    out (snd (Handle h stk2 ctx r2 wd2)) =
      out wd2 ++ diag2 ++
      [(slog.fd (slog.w (Handler h)),
        slog.format (Handler h)
          (slog.AddAttrs (addSource h stk2 r2) (contextAttrs h ctx (ext wd2))))] /\
    withoutTimes diag1 = withoutTimes diag2 /\
    stderr (snd (Handle h stk1 ctx r1 wd1)) = stderr wd1 ++ e1 /\
    stderr (snd (Handle h stk2 ctx r2 wd2)) = stderr wd2 ++ e2 /\
    map withoutRecordTime e1 = map withoutRecordTime e2 /\
    ext (snd (Handle h stk1 ctx r1 wd1)) = ext (snd (Handle h stk2 ctx r2 wd2)).
Proof.
  intros He Hd.
  destruct wd1 as [x1 o1 s1 d1 c1], wd2 as [x2 o2 s2 d2 c2].
  cbn [ext defaultLogger] in He, Hd. subst x2 d2.
  unfold Handle, contextAttrs. cbn [ext out stderr].
  destruct (isBackground ctx).
  - exists [], [], [], []. rewrite !AddAttrs_nil, !app_nil_r.
    unfold liftOut. cbn. repeat split; auto.
  - destruct (AppendAttrFromContext h) as [f|].
    + unfold bind, liftExt. cbn [ext].
      destruct (f ctx x1) as [[attrs [err|]] e'].
      * rewrite !AddAttrs_nil. unfold slog_Error.
        cbn [defaultLogger set_ext].
        pose (report := fun t : Z =>
                slog.AddAttrs
                  (slog.NewRecord t slog.LevelError
                     "failed to append attributes from context" 0)
                  [slog.String "error" err]).
        destruct d1 as [|h0 stk0].
        -- exists [], [], [report c1], [report c2]. cbn. rewrite ?app_nil_r.
           repeat split; reflexivity.
        -- cbn [slog.Enabled slog.commonHandler_Handler].
           destruct (slog.enabled (Handler h0) slog.LevelError).
           ++ exists [(slog.fd (slog.w (Handler h0)),
                       slog.format (Handler h0) (addSource h0 stk0 (report c1)))],
                     [(slog.fd (slog.w (Handler h0)),
                       slog.format (Handler h0) (addSource h0 stk0 (report c2)))],
                     [], [].
              cbn. rewrite ?app_nil_r, <- ?app_assoc.
              repeat split; try reflexivity.
              unfold withoutTimes. cbn [map fst snd]. do 2 f_equal.
              exact (report_withoutTime h0 stk0 c1 c2 _ _).
           ++ exists [], [], [], []. cbn. rewrite ?app_nil_r.
              repeat split; reflexivity.
      * exists [], [], [], []. cbn. rewrite ?app_nil_r.
        repeat split; reflexivity.
    + exists [], [], [], []. unfold ret. rewrite !AddAttrs_nil. cbn.
      rewrite ?app_nil_r. repeat split; auto.
Qed.

(** Lines that agree except for time and source agree on every
    attribute that is not a source attribute. *)
Lemma sameModulo_filter (key : string) (l1 l2 : slog.Line) :
  sameModuloSourceAndTime key l1 l2 ->
  filter (fun q => negb (isSourceAttr key q)) (slog.line_attrs l1) =
  filter (fun q => negb (isSourceAttr key q)) (slog.line_attrs l2).
Proof.
  intros (_ & _ & _ & _ & pre & s1 & s2 & post & H1 & H2 & S1 & S2).
  rewrite H1, H2, !filter_app.
  assert (Hs : forall s, sourceSlot key s ->
                 filter (fun q => negb (isSourceAttr key q)) s = []).
  { intros s [->|(v & ->)]; [reflexivity|].
    cbn. now rewrite String.eqb_refl. }
  now rewrite (Hs s1 S1), (Hs s2 S2).
Qed.

End TwoRuns.

(** ** Chains of derivations over the built-in handlers *)

(** What a chain adds to the preformatted attributes. *)
Lemma deriveSink_preformatted ds : forall s : slog.commonHandler,
  slog.preformattedAttrs (deriveSink ds s) =
  slog.preformattedAttrs s ++ chainAttrs (slog.groups s) ds.
Proof.
  induction ds as [|d ds IH]; intros s.
  - simpl. now rewrite app_nil_r.
  - unfold deriveSink in *. simpl. rewrite IH.
    destruct d; simpl; [now rewrite <- app_assoc|reflexivity].
Qed.

(** X5.  Through any chain of derivations the writer, the format and the
    baked attributes stay; each attribute list the chain added follows
    them, under the groups the chain had opened when it was added; and
    the record's own attributes, the source attribute and the context's
    attributes all sit under the groups the chain opened, in the order it
    opened them.  This for a record nobody else has appended to.  The
    writer's answer is the result. *)
Theorem chain_nesting {E : Type} pid os_Stdout (o : ContextHandlerOptions.t E)
  ds stk ctx r (wd : World E slog.Output slog.commonHandler) hp :
  inplace.unshared hp r = true ->
  let h := derive ds (NewContextHandler pid os_Stdout o) in
  let wr :=
    match ContextHandlerOptions.Writer o with
    | None => os_Stdout
    | Some wr => wr
    end in
  let run := inplace.Handle h stk ctx r (wd, hp) in
  exists diag line,
    fst run = slog.Write wr line /\
    out (fst (snd run)) = out wd ++ diag ++ [(slog.fd wr, line)] /\
    (List.length diag <= 1)%nat /\
    slog.line_json line = ContextHandlerOptions.UseJson o /\
    slog.line_builtin_source line = None /\
    slog.line_attrs line =
      pidAttr pid o ++
      slog.appendAttrs [] (ContextHandlerOptions.ExtraAttrs o) ++
      chainAttrs [] ds ++
      slog.appendAttrs (groupNames ds)
        (inplace.Attrs hp r ++ sourceAttr o stk ++
         filter (fun a => negb (slog.isEmptyGroup (slog.Val a)))
           (contextAttrs h ctx (ext wd))).
Proof.
  intros Hu h wr run.
  destruct (Handle_agrees_Unshared h stk ctx r wd hp (unshared_Unshared hp r Hu))
    as (hp' & Hag).
  destruct (Handle_builtin h stk ctx (inplace.read hp r) wd)
    as (diag & wd' & Hh & Ho & Hlen).
  destruct (derive_configuration ds (NewContextHandler pid os_Stdout o)) as (D & _).
  fold h in D.
  destruct (deriveSink_builtin ds (Handler (NewContextHandler pid os_Stdout o)))
    as (J' & Op' & Wr' & _).
  pose proof (deriveSink_preformatted ds
                (Handler (NewContextHandler pid os_Stdout o))) as P.
  pose proof (deriveSink_groups ds (Handler (NewContextHandler pid os_Stdout o))) as G'.
  destruct (NewContextHandler_sink pid os_Stdout o) as (J & Op & Wr & G & Q).
  rewrite <- D in J', Op', Wr', P, G'.
  rewrite J in J'. rewrite Op in Op'. rewrite Wr in Wr'. fold wr in Wr'.
  rewrite G in G', P. rewrite Q in P. cbn [app] in G'.
  pose proof (attrs_enriched_options pid os_Stdout o ds stk ctx
                (inplace.read hp r) wd) as Ha.
  fold h in Ha. cbv zeta in Ha.
  rewrite Wr' in Hh, Ho.
  exists diag. eexists.
  unfold run. rewrite Hag, Hh. cbn [fst snd].
  split; [reflexivity|]. split; [exact Ho|]. split; [exact Hlen|].
  split; [exact J'|].
  split; [cbn [slog.format slog.line_builtin_source]; now rewrite Op'|].
  cbn [slog.format slog.line_attrs].
  rewrite Ha, P, G'. unfold pidAttr. cbn [inplace.read slog.attrs].
  now rewrite <- !app_assoc.
Qed.

(** ** Two runs of handlers built from the same options *)


(** ** Instances *)

(** C3, the failing input.  A record holding eight attributes is handed
    to the usage example's handler twice, with the background context,
    as a handler that fans out to several handlers hands its record on.
    Nobody has appended to the record before the first call, and the
    caller's record reads the same before each call.  The first call
    appends one attribute, the source attribute, and writes it into the
    array behind the caller's record; the second call finds that slot
    written and appends two: ["!BUG"] and then the source attribute. *)
Lemma Handle_twice_on_one_record :
  inplace.unshared (snd Ex2.eight) (fst Ex2.eight) = true /\
  inplace.Attrs (snd (snd Ex2.firstCall)) (fst Ex2.eight) =
    inplace.Attrs (snd Ex2.eight) (fst Ex2.eight) /\
  fst Ex2.firstCall = None /\
  fst Ex2.secondCall = None /\
  map (fun l => slog.line_attrs (snd l)) (out (fst (snd Ex2.secondCall))) =
    [ [([], "pid", slog.Int64Value 4242);
       ([], "a1", slog.Int64Value 1); ([], "a2", slog.Int64Value 1);
       ([], "a3", slog.Int64Value 1); ([], "a4", slog.Int64Value 1);
       ([], "a5", slog.Int64Value 1); ([], "a6", slog.Int64Value 1);
       ([], "a7", slog.Int64Value 1); ([], "a8", slog.Int64Value 1);
       ([], "source", slog.StringValue "main.go:42")];
      [([], "pid", slog.Int64Value 4242);
       ([], "a1", slog.Int64Value 1); ([], "a2", slog.Int64Value 1);
       ([], "a3", slog.Int64Value 1); ([], "a4", slog.Int64Value 1);
       ([], "a5", slog.Int64Value 1); ([], "a6", slog.Int64Value 1);
       ([], "a7", slog.Int64Value 1); ([], "a8", slog.Int64Value 1);
       ([], "!BUG",
        slog.StringValue
          "AddAttrs unsafely called on copy of Record made without using Record.Clone");
       ([], "source", slog.StringValue "main.go:42")] ].
Proof.
  repeat split; vm_compute; reflexivity.
Qed.



(** X8, instance: the eight-attribute record on a request context. *)
Lemma in_place_Handle_agrees_witness :
  inplace.unshared (snd Ex2.eight) (fst Ex2.eight) = true /\
  exists hp',
    inplace.Handle (Ex.handler Ex.succeeding) Ex.stack Ex.request (fst Ex2.eight)
      (Ex.fresh, snd Ex2.eight) =
    (let '(res, wd') :=
       Handle (Ex.handler Ex.succeeding) Ex.stack Ex.request
         (inplace.read (snd Ex2.eight) (fst Ex2.eight)) Ex.fresh in
     (res, (wd', hp'))).
Proof.
  split; [reflexivity|].
  exact (in_place_Handle_agrees (Ex.handler Ex.succeeding) Ex.stack Ex.request
           (fst Ex2.eight) Ex.fresh (snd Ex2.eight) eq_refl).
Defined.

(** X9, instance: the eight-attribute record on a request context. *)
Lemma source_attribute_reaches_sink_witness :
  inplace.unshared (snd Ex2.eight) (fst Ex2.eight) = true /\
  AddSource (Ex.handler Ex.succeeding) = true /\
  exists wd1 hp',
    inplace.Handle (Ex.handler Ex.succeeding) Ex.stack Ex.request (fst Ex2.eight)
      (Ex.fresh, snd Ex2.eight) =
    (let '(res, o) :=
       slog.Handle (Handler (Ex.handler Ex.succeeding)) Ex.request
         (slog.mkRecord 999 "test message" slog.LevelInfo 0
            (inplace.Attrs (snd Ex2.eight) (fst Ex2.eight) ++
             [slog.mkAttr "source" (slog.StringValue "main.go:42")] ++
             Ex.requestAttrs))
         (out wd1) in
     (res, (set_out wd1 o, hp'))) /\
    (isBackground Ex.request = true -> wd1 = Ex.fresh).
Proof.
  split; [reflexivity|]. split; [reflexivity|].
  exact (source_attribute_reaches_sink (Ex.handler Ex.succeeding) Ex.stack
           Ex.request (fst Ex2.eight) Ex.fresh (snd Ex2.eight) eq_refl eq_refl).
Defined.

(** X1, instance: the extractor of the test suite on a request. *)
Lemma Handle_extractor_success_in_place_witness :
  inplace.unshared (snd Ex2.eight) (fst Ex2.eight) = true /\
  isBackground Ex.request = false /\
  AppendAttrFromContext (Ex.handler Ex.succeeding) = Some Ex.succeeding /\
  Ex.succeeding Ex.request (ext Ex.fresh) = (Ex.requestAttrs, None, 1%nat) /\
  exists hp',
    inplace.Handle (Ex.handler Ex.succeeding) Ex.stack Ex.request (fst Ex2.eight)
      (Ex.fresh, snd Ex2.eight) =
    (let '(res, o) :=
       slog.Handle (Handler (Ex.handler Ex.succeeding)) Ex.request
         (slog.mkRecord 999 "test message" slog.LevelInfo 0
            (inplace.Attrs (snd Ex2.eight) (fst Ex2.eight) ++
             [slog.mkAttr "source" (slog.StringValue "main.go:42")] ++
             Ex.requestAttrs))
         (out Ex.fresh) in
     (res,
      ({| ext := 1%nat; out := o; stderr := stderr Ex.fresh;
          defaultLogger := defaultLogger Ex.fresh; clock := clock Ex.fresh |},
       hp'))).
Proof.
  repeat (split; [reflexivity|]).
  exact (Handle_extractor_success_in_place (Ex.handler Ex.succeeding) Ex.stack
           Ex.request (fst Ex2.eight) Ex.fresh (snd Ex2.eight) Ex.succeeding
           Ex.requestAttrs 1%nat eq_refl eq_refl eq_refl eq_refl).
Defined.

(** X10, instance: the eight-attribute record after a first call. *)
Lemma Handle_reused_inserts_bug_witness :
  inplace.reused (snd (snd Ex2.firstCall)) (fst Ex2.eight) = true /\
  AddSource (Ex.handler Ex.succeeding) = true /\
  runtime.Caller Ex.stack 3 = Some ("main.go", 42) /\
  exists hp',
    inplace.Handle (Ex.handler Ex.succeeding) Ex.stack Background (fst Ex2.eight)
      (fst (snd Ex2.firstCall), snd (snd Ex2.firstCall)) =
    (let '(res, o) :=
       slog.Handle (Handler (Ex.handler Ex.succeeding)) Background
         (slog.mkRecord 999 "test message" slog.LevelInfo 0
            (inplace.Attrs (snd (snd Ex2.firstCall)) (fst Ex2.eight) ++
             [inplace.bug;
              slog.mkAttr "source" (slog.StringValue "main.go:42")]))
         (out (fst (snd Ex2.firstCall))) in
     (res, (set_out (fst (snd Ex2.firstCall)) o, hp'))).
Proof.
  repeat (split; [reflexivity|]).
  exact (Handle_reused_inserts_bug (Ex.handler Ex.succeeding) Ex.stack
           (fst Ex2.eight) (fst (snd Ex2.firstCall)) (snd (snd Ex2.firstCall))
           "main.go" 42 eq_refl eq_refl eq_refl).
Defined.

(** X5, instance: [WithAttrs(static=x).WithGroup(g).WithAttrs(inner=y)]
    over the usage example's handler. *)
Lemma chain_nesting_witness :
  inplace.unshared (snd Ex2.stored) (fst Ex2.stored) = true /\
  exists diag line,
    fst (inplace.Handle
           (derive [ByAttrs [slog.String "static" "x"]; ByGroup "g";
                    ByAttrs [slog.String "inner" "y"]]
              (Ex.handler Ex.succeeding))
           Ex.stack Ex.request (fst Ex2.stored) (Ex.fresh, snd Ex2.stored)) =
      slog.Write Ex.buf line /\
    out (fst (snd (inplace.Handle
           (derive [ByAttrs [slog.String "static" "x"]; ByGroup "g";
                    ByAttrs [slog.String "inner" "y"]]
              (Ex.handler Ex.succeeding))
           Ex.stack Ex.request (fst Ex2.stored) (Ex.fresh, snd Ex2.stored)))) =
      out Ex.fresh ++ diag ++ [("buf", line)] /\
    (List.length diag <= 1)%nat /\
    slog.line_json line = true /\
    slog.line_builtin_source line = None /\
    slog.line_attrs line =
      [([], "pid", slog.Int64Value 4242)] ++ [] ++
      [([], "static", slog.StringValue "x");
       (["g"], "inner", slog.StringValue "y")] ++
      [(["g"], "k", slog.StringValue "v");
       (["g"], "source", slog.StringValue "main.go:42");
       (["g"], "request_id", slog.StringValue "12345");
       (["g"], "user_id", slog.StringValue "user-1")].
Proof.
  split; [reflexivity|].
  exact (chain_nesting Ex.pid Ex.stdout (Ex.options Ex.succeeding)
           [ByAttrs [slog.String "static" "x"]; ByGroup "g";
            ByAttrs [slog.String "inner" "y"]]
           Ex.stack Ex.request (fst Ex2.stored) Ex.fresh (snd Ex2.stored) eq_refl).
Defined.
